(** * BurrowSpace P2P server: peer registry, transfer workflow, signalling
      and relay fallback of [python_server/server.py].

    The server keeps four process-wide Python dictionaries and answers HTTP
    and Socket.IO calls by reading and mutating them.  The embedding below
    threads one [State] through every handler.  What the handlers read from
    their environment (the clock, [uuid.uuid4()], the outcome of writing the
    uploaded file) is an explicit argument of the handler. *)

From Stdlib Require Import String ZArith List Bool Lia.
Import ListNotations.

Local Open Scope string_scope.
Local Open Scope Z_scope.

(** ** Python dictionaries

    A [dict] keeps its keys in insertion order, and several handlers depend
    on that order (they notify the first matching peer and [break]), so a
    dictionary is an association list.  [dict_set] is [d[k] = v]: an existing
    key keeps its position, a new key goes to the end. *)

Section Dict.
Context {V : Type}.

Definition dict := list (string * V).

Fixpoint dict_get (k : string) (d : dict) : option V :=
  match d with
  | [] => None
  | (k', v) :: r => if String.eqb k k' then Some v else dict_get k r
  end.

(** [k in d] *)
Definition dict_in (k : string) (d : dict) : bool :=
  match dict_get k d with Some _ => true | None => false end.

Fixpoint dict_set (k : string) (v : V) (d : dict) : dict :=
  match d with
  | [] => [(k, v)]
  | (k', v') :: r =>
      if String.eqb k k' then (k', v) :: r else (k', v') :: dict_set k v r
  end.

Definition dict_keys (d : dict) : list string := map fst d.
End Dict.

Arguments dict V : clear implicits.

(** ** Records of the four registries

    Timestamps are [datetime.now()] values, counted in microseconds (the
    resolution of [datetime]); [isoformat]/[fromisoformat] is the identity on
    them.  A key that a record may lack (['socket_id'], ['disconnected_at'],
    ['file_path'], ['completed_at']) is an [option]. *)

Inductive PeerStatus := online | offline.

Module Peer.
Record t := mk {
  user_id : string;
  ip : string;
  connected_at : Z;
  status : PeerStatus;
  last_seen : Z;
  socket_id : option string;
  disconnected_at : option Z
}.

Definition set_status (s : PeerStatus) (p : t) : t :=
  mk (user_id p) (ip p) (connected_at p) s (last_seen p) (socket_id p)
     (disconnected_at p).
Definition set_last_seen (ts : Z) (p : t) : t :=
  mk (user_id p) (ip p) (connected_at p) (status p) ts (socket_id p)
     (disconnected_at p).
Definition set_socket_id (sid : string) (p : t) : t :=
  mk (user_id p) (ip p) (connected_at p) (status p) (last_seen p) (Some sid)
     (disconnected_at p).
Definition set_disconnected_at (ts : Z) (p : t) : t :=
  mk (user_id p) (ip p) (connected_at p) (status p) (last_seen p)
     (socket_id p) (Some ts).

Definition is_online (p : t) : bool :=
  match status p with online => true | offline => false end.
End Peer.

Inductive RequestStatus := pending | approved.

Module TransferRequest.
Record t := mk {
  sender_id : string;
  receiver_id : string;
  filename : string;
  status : RequestStatus;
  created_at : Z
}.

Definition set_status (s : RequestStatus) (r : t) : t :=
  mk (sender_id r) (receiver_id r) (filename r) s (created_at r).
End TransferRequest.

Inductive TransferMode := p2p | server_relay.

Module ActiveTransfer.
(** [status] and [progress] are whatever the client posts to
    [/update-transfer-status], so [status] is a string. *)
Record t := mk {
  request_id : string;
  status : string;
  progress : Z;
  created_at : Z;
  sender_id : string;
  receiver_id : string;
  filename : string;
  transfer_mode : TransferMode;
  file_path : option string;
  completed_at : option Z
}.

Definition set_status (s : string) (a : t) : t :=
  mk (request_id a) s (progress a) (created_at a) (sender_id a)
     (receiver_id a) (filename a) (transfer_mode a) (file_path a)
     (completed_at a).
Definition set_progress (p : Z) (a : t) : t :=
  mk (request_id a) (status a) p (created_at a) (sender_id a)
     (receiver_id a) (filename a) (transfer_mode a) (file_path a)
     (completed_at a).
Definition set_transfer_mode (m : TransferMode) (a : t) : t :=
  mk (request_id a) (status a) (progress a) (created_at a) (sender_id a)
     (receiver_id a) (filename a) m (file_path a) (completed_at a).
Definition set_file_path (f : string) (a : t) : t :=
  mk (request_id a) (status a) (progress a) (created_at a) (sender_id a)
     (receiver_id a) (filename a) (transfer_mode a) (Some f)
     (completed_at a).
Definition set_completed_at (ts : Z) (a : t) : t :=
  mk (request_id a) (status a) (progress a) (created_at a) (sender_id a)
     (receiver_id a) (filename a) (transfer_mode a) (file_path a) (Some ts).
End ActiveTransfer.

Inductive RelayStatus := initiated | completed.

Module RelaySession.
(** [sender_id] and [receiver_id] come from [data.get(...)] of the
    [peer_signal] event and are [None] when the event lacks the key. *)
Record t := mk {
  sender_id : option string;
  receiver_id : option string;
  status : RelayStatus;
  created_at : Z
}.

Definition set_status (s : RelayStatus) (r : t) : t :=
  mk (sender_id r) (receiver_id r) s (created_at r).
End RelaySession.

(** ** Outbound Socket.IO events ([sio.emit]) *)

Inductive Emit :=
| emit_peer_disconnected (peer_id : string)
| emit_peer_signal (room : string) (sender_peer_id signal : option string)
| emit_relay_initiated (room session_id : string)
    (target_peer_id : option string)
| emit_relay_chunk (room session_id : string) (chunk : option string)
    (index total : option Z)
| emit_transfer_request (room request_id sender_id filename : string)
| emit_transfer_approved (room request_id transfer_id : string)
| emit_transfer_completed (room transfer_id : string)
    (filename : option string) (mode : TransferMode)
| emit_transfer_cancelled (room transfer_id : string).

(** ** What a handler returns *)

Inductive Response :=
| http_error (code : Z) (error : string)
| sio_none
| sio_success
| sio_error (message : string)
| sio_relay (message : string)
| sio_queued (message : string)
| resp_status (n_peers n_transfers : nat)
| resp_connected (peer_id : string)
| resp_ok
| resp_peers (peers : dict Peer.t)
| resp_pending (request_id : string) (receiver_online : bool)
| resp_approved (transfer_id : string) (sender_online : bool)
| resp_completed (transfer_id filename : string)
| resp_file (path : string)
| resp_transfer (a : ActiveTransfer.t)
| resp_updated
| resp_cancelled (transfer_id : string)
| resp_disconnected (peer_id : string).

(** ** Server state: the four registries, the files staged under
    [UPLOAD_FOLDER], and the events emitted so far (oldest first). *)

Record State := mkState {
  connected_peers : dict Peer.t;
  transfer_requests : dict TransferRequest.t;
  active_transfers : dict ActiveTransfer.t;
  relay_sessions : dict RelaySession.t;
  files : list string;
  emitted : list Emit
}.

Definition with_connected_peers (d : dict Peer.t) (st : State) : State :=
  mkState d (transfer_requests st) (active_transfers st) (relay_sessions st)
          (files st) (emitted st).
Definition with_transfer_requests (d : dict TransferRequest.t) (st : State)
  : State :=
  mkState (connected_peers st) d (active_transfers st) (relay_sessions st)
          (files st) (emitted st).
Definition with_active_transfers (d : dict ActiveTransfer.t) (st : State)
  : State :=
  mkState (connected_peers st) (transfer_requests st) d (relay_sessions st)
          (files st) (emitted st).
Definition with_relay_sessions (d : dict RelaySession.t) (st : State) : State :=
  mkState (connected_peers st) (transfer_requests st) (active_transfers st) d
          (files st) (emitted st).
Definition with_files (fs : list string) (st : State) : State :=
  mkState (connected_peers st) (transfer_requests st) (active_transfers st)
          (relay_sessions st) fs (emitted st).
(** [sio.emit]: append to the log of emitted events. *)
Definition sio_emit (es : list Emit) (st : State) : State :=
  mkState (connected_peers st) (transfer_requests st) (active_transfers st)
          (relay_sessions st) (files st) (emitted st ++ es).

Definition empty_state : State := mkState [] [] [] [] [] [].

(** ** File system of the upload folder *)

Definition UPLOAD_FOLDER : string := "transfers".

Definition os_path_exists (path : string) (fs : list string) : bool :=
  existsb (String.eqb path) fs.

Definition os_remove (path : string) (fs : list string) : list string :=
  filter (fun f => negb (String.eqb path f)) fs.

Definition file_save (path : string) (fs : list string) : list string :=
  if os_path_exists path fs then fs else fs ++ [path].

Definition ends_with_slash (a : string) : bool :=
  match String.length a with
  | O => false
  | S n => String.eqb (String.substring n 1 a) "/"
  end.

(** [os.path.join(a, b)] on POSIX. *)
Definition os_path_join (a b : string) : string :=
  if String.prefix "/" b then b
  else if (String.eqb a "" || ends_with_slash a)%bool then a ++ b
  else a ++ "/" ++ b.

(** ** Shared lookups of the handlers *)

(** [pid in connected_peers and 'socket_id' in connected_peers[pid]], giving
    [connected_peers[pid]['socket_id']].  The test does not read ['status']. *)
Definition socket_of (pid : option string) (peers : dict Peer.t)
  : option string :=
  match pid with
  | None => None
  | Some k =>
      match dict_get k peers with
      | Some p => Peer.socket_id p
      | None => None
      end
  end.

(** The loop
    [for peer_id, peer_data in connected_peers.items():
       if peer_data['user_id'] == user and peer_data['status'] == 'online':
         ...; break]
    stops at the first online peer of [user]. *)
Definition first_online (user : string) (peers : dict Peer.t)
  : option (string * Peer.t) :=
  find (fun e => (String.eqb (Peer.user_id (snd e)) user
                  && Peer.is_online (snd e))%bool) peers.

(** The event that loop emits: only when the peer found has a socket. *)
Definition notify_first (user : string) (ev : string -> Emit)
  (peers : dict Peer.t) : list Emit :=
  match first_online user peers with
  | Some (_, p) =>
      match Peer.socket_id p with Some s => [ev s] | None => [] end
  | None => []
  end.

(** The loop without [break] of [update_transfer_status] and
    [cancel_transfer]: every online peer of the sender or of the receiver
    that has a socket is notified, in dictionary order. *)
Definition notify_both (sender receiver : string) (ev : string -> Emit)
  (peers : dict Peer.t) : list Emit :=
  flat_map
    (fun e =>
       if ((String.eqb (Peer.user_id (snd e)) sender
            || String.eqb (Peer.user_id (snd e)) receiver)
           && Peer.is_online (snd e))%bool
       then match Peer.socket_id (snd e) with
            | Some s => [ev s]
            | None => []
            end
       else [])
    peers.

(** ** Socket.IO handlers *)

(** [peer_data.get('socket_id') == sid] *)
Definition socket_is (sid : string) (p : Peer.t) : bool :=
  match Peer.socket_id p with
  | Some s => String.eqb s sid
  | None => false
  end.

(** The loop of [disconnect(sid)].  [peer_data] is the very dictionary
    stored under [peer_id], so the two assignments mutate the visited entry
    in place.  [datetime.now()] is read once per marked peer: [clock i] is
    the reading made for the peer marked after [i] others. *)
Fixpoint mark_offline (sid : string) (clock : nat -> Z) (i : nat)
  (peers : dict Peer.t) : dict Peer.t :=
  match peers with
  | [] => []
  | e :: r =>
      if socket_is sid (snd e)
      then (fst e,
            Peer.set_disconnected_at (clock i) (Peer.set_status offline (snd e)))
           :: mark_offline sid clock (S i) r
      else e :: mark_offline sid clock i r
  end.

(** [disconnect(sid)]: the channel-loss handler.  One 'peer_disconnected'
    event is broadcast for each peer marked, in the order of the loop. *)
Definition disconnect (sid : string) (clock : nat -> Z) (st : State)
  : State * Response :=
  let evs :=
    flat_map (fun e => if socket_is sid (snd e)
                       then [emit_peer_disconnected (fst e)]
                       else [])
             (connected_peers st) in
  (sio_emit evs
     (with_connected_peers (mark_offline sid clock 0 (connected_peers st)) st),
   sio_none).

Definition register_socket (sid : string) (peer_id : option string) (now : Z)
  (st : State) : State * Response :=
  match peer_id with
  | Some k =>
      if String.eqb k "" then (st, sio_error "Invalid peer ID")
      else
        match dict_get k (connected_peers st) with
        | Some p =>
            (with_connected_peers
               (dict_set k (Peer.set_last_seen now (Peer.set_socket_id sid p))
                         (connected_peers st)) st,
             sio_success)
        | None => (st, sio_error "Invalid peer ID")
        end
  | None => (st, sio_error "Invalid peer ID")
  end.

(** [initiate_relay]; [uuid] is the value of [str(uuid.uuid4())]. *)
Definition initiate_relay (uuid : string) (now : Z)
  (sender_peer_id receiver_peer_id : option string) (st : State)
  : State * string :=
  let session_id := uuid in
  let st1 :=
    with_relay_sessions
      (dict_set session_id
                (RelaySession.mk sender_peer_id receiver_peer_id initiated now)
                (relay_sessions st)) st in
  let st2 :=
    match socket_of sender_peer_id (connected_peers st1) with
    | Some sender_socket_id =>
        sio_emit [emit_relay_initiated sender_socket_id session_id
                                       receiver_peer_id] st1
    | None => st1
    end in
  (st2, session_id).

Definition peer_signal (target_peer_id sender_peer_id signal : option string)
  (uuid : string) (now : Z) (st : State) : State * Response :=
  match socket_of target_peer_id (connected_peers st) with
  | Some target_socket_id =>
      (sio_emit [emit_peer_signal target_socket_id sender_peer_id signal] st,
       sio_success)
  | None =>
      let (st', _) := initiate_relay uuid now sender_peer_id target_peer_id st in
      (st', sio_relay "Target peer unavailable, using relay")
  end.

(** [relay_chunk].  [index] and [total] come from [data.get]; with [total]
    missing, [total_chunks - 1] raises after the chunk has been forwarded and
    the handler answers with the error. *)
Definition relay_chunk (session_id chunk : option string)
  (index total : option Z) (st : State) : State * Response :=
  match session_id with
  | None => (st, sio_error "Invalid relay session")
  | Some k =>
      match dict_get k (relay_sessions st) with
      | None => (st, sio_error "Invalid relay session")
      | Some s =>
          match socket_of (RelaySession.receiver_id s) (connected_peers st) with
          | Some receiver_socket_id =>
              let st1 :=
                sio_emit [emit_relay_chunk receiver_socket_id k chunk
                                           index total] st in
              match total with
              | None =>
                  (st1, sio_error
                     "unsupported operand type(s) for -: 'NoneType' and 'int'")
              | Some n =>
                  let last :=
                    match index with
                    | Some i => Z.eqb i (n - 1)
                    | None => false
                    end in
                  if last
                  then (with_relay_sessions
                          (dict_set k (RelaySession.set_status completed s)
                                    (relay_sessions st1)) st1,
                        sio_success)
                  else (st1, sio_success)
              end
          | None => (st, sio_queued "Receiver offline, chunk queued")
          end
      end
  end.

(** ** HTTP handlers *)

Definition get_status (st : State) : State * Response :=
  (st, resp_status (List.length (connected_peers st))
                   (List.length (active_transfers st))).

(** [connect_peer]; [user_id] is [None] when the body lacks the key.  The
    handler reads the clock twice. *)
Definition connect_peer (user_id : option string) (remote_addr uuid : string)
  (now now' : Z) (st : State) : State * Response :=
  match user_id with
  | None => (st, http_error 400 "Missing required parameters")
  | Some u =>
      let peer_id := uuid in
      (with_connected_peers
         (dict_set peer_id (Peer.mk u remote_addr now online now' None None)
                   (connected_peers st)) st,
       resp_connected peer_id)
  end.

Definition heartbeat (peer_id : string) (now : Z) (st : State)
  : State * Response :=
  match dict_get peer_id (connected_peers st) with
  | None => (st, http_error 404 "Peer not found")
  | Some p =>
      (with_connected_peers
         (dict_set peer_id (Peer.set_status online (Peer.set_last_seen now p))
                   (connected_peers st)) st,
       resp_ok)
  end.

Definition get_peers (user_id : option string) (st : State)
  : State * Response :=
  let wanted (p : Peer.t) :=
    match user_id with
    | None => true
    | Some u => (String.eqb u "" || String.eqb (Peer.user_id p) u)%bool
    end in
  (st, resp_peers (filter (fun e => (Peer.is_online (snd e) && wanted (snd e))%bool)
                          (connected_peers st))).

Definition request_file_transfer (sender_id receiver_id filename : option string)
  (uuid : string) (now : Z) (st : State) : State * Response :=
  match sender_id, receiver_id, filename with
  | Some s, Some r, Some f =>
      let request_id := uuid in
      let st1 :=
        with_transfer_requests
          (dict_set request_id (TransferRequest.mk s r f pending now)
                    (transfer_requests st)) st in
      let st2 :=
        sio_emit (notify_first r (fun room =>
                    emit_transfer_request room request_id s f)
                    (connected_peers st1)) st1 in
      (st2, resp_pending request_id
              (match first_online r (connected_peers st1) with
               | Some _ => true
               | None => false
               end))
  | _, _, _ => (st, http_error 400 "Missing required parameters")
  end.

Definition approve_transfer (request_id uuid : string) (now : Z) (st : State)
  : State * Response :=
  match dict_get request_id (transfer_requests st) with
  | None => (st, http_error 404 "Transfer request not found")
  | Some r0 =>
      let r := TransferRequest.set_status approved r0 in
      let st1 :=
        with_transfer_requests
          (dict_set request_id r (transfer_requests st)) st in
      let transfer_id := uuid in
      let st2 :=
        with_active_transfers
          (dict_set transfer_id
             (ActiveTransfer.mk request_id "ready" 0 now
                (TransferRequest.sender_id r) (TransferRequest.receiver_id r)
                (TransferRequest.filename r) p2p None None)
             (active_transfers st1)) st1 in
      let sender_id := TransferRequest.sender_id r in
      let st3 :=
        sio_emit (notify_first sender_id (fun room =>
                    emit_transfer_approved room request_id transfer_id)
                    (connected_peers st2)) st2 in
      (st3, resp_approved transfer_id
              (match first_online sender_id (connected_peers st2) with
               | Some _ => true
               | None => false
               end))
  end.

Definition download_file (transfer_id : string) (st : State)
  : State * Response :=
  match dict_get transfer_id (active_transfers st) with
  | None => (st, http_error 404 "Transfer not found")
  | Some transfer =>
      if negb (String.eqb (ActiveTransfer.status transfer) "completed")
      then (st, http_error 400 "File not ready for download")
      else
        match ActiveTransfer.file_path transfer with
        | None => (st, http_error 500 "'file_path'")
        | Some file_path =>
            if os_path_exists file_path (files st)
            then (st, resp_file file_path)
            else (st, http_error 404 "File not found")
        end
  end.

Definition get_transfer_status (transfer_id : string) (st : State)
  : State * Response :=
  match dict_get transfer_id (active_transfers st) with
  | None => (st, http_error 404 "Transfer not found")
  | Some a => (st, resp_transfer a)
  end.

(** [update_transfer_status]; [status] and [progress] are [None] when the
    body lacks the key.  The body is checked before the transfer is looked
    up.  Nothing reads the transfer's current status. *)
Definition update_transfer_status (transfer_id : string)
  (status : option string) (progress : option Z) (now : Z) (st : State)
  : State * Response :=
  match status, progress with
  | Some s, Some p =>
      match dict_get transfer_id (active_transfers st) with
      | None => (st, http_error 404 "Transfer not found")
      | Some a0 =>
          let a1 := ActiveTransfer.set_progress p
                      (ActiveTransfer.set_status s a0) in
          if String.eqb s "completed" then
            let a2 := ActiveTransfer.set_completed_at now a1 in
            let st1 :=
              with_active_transfers
                (dict_set transfer_id a2 (active_transfers st)) st in
            (sio_emit
               (notify_both (ActiveTransfer.sender_id a2)
                  (ActiveTransfer.receiver_id a2)
                  (fun room => emit_transfer_completed room transfer_id None p2p)
                  (connected_peers st1)) st1,
             resp_updated)
          else
            (with_active_transfers
               (dict_set transfer_id a1 (active_transfers st)) st,
             resp_updated)
      end
  | _, _ => (st, http_error 400 "Missing required parameters")
  end.

(** [cancel_transfer].  Nothing reads the transfer's current status.  The
    staged file is removed when the transfer is in server-relay mode, has a
    ['file_path'] and the file exists. *)
Definition cancel_transfer (transfer_id : string) (st : State)
  : State * Response :=
  match dict_get transfer_id (active_transfers st) with
  | None => (st, http_error 404 "Transfer not found")
  | Some a0 =>
      let a := ActiveTransfer.set_status "cancelled" a0 in
      let st1 :=
        with_active_transfers (dict_set transfer_id a (active_transfers st)) st in
      let st2 :=
        match ActiveTransfer.transfer_mode a, ActiveTransfer.file_path a with
        | server_relay, Some file_path =>
            if os_path_exists file_path (files st1)
            then with_files (os_remove file_path (files st1)) st1
            else st1
        | _, _ => st1
        end in
      (sio_emit
         (notify_both (ActiveTransfer.sender_id a) (ActiveTransfer.receiver_id a)
            (fun room => emit_transfer_cancelled room transfer_id)
            (connected_peers st2)) st2,
       resp_cancelled transfer_id)
  end.

(** [disconnect_peer]: the two assignments; ['socket_id'] is not touched. *)
Definition disconnect_peer (peer_id : string) (now : Z) (st : State)
  : State * Response :=
  match dict_get peer_id (connected_peers st) with
  | None => (st, http_error 404 "Peer not found")
  | Some p =>
      (with_connected_peers
         (dict_set peer_id
            (Peer.set_disconnected_at now (Peer.set_status offline p))
            (connected_peers st)) st,
       resp_disconnected peer_id)
  end.

(** ** The cleanup task

    [(now - last_seen).total_seconds() > 60], with both times in
    microseconds.  The float quotient by 10^6 is monotone and 60 is a
    float, so the test is exact. *)
Definition timed_out (now : Z) (p : Peer.t) : bool :=
  60 * 1000000 <? now - Peer.last_seen p.

(** One pass of the body of [cleanup_inactive_peers].  [peer_data] is the
    dictionary stored under [peer_id], so the assignment mutates the visited
    entry in place. *)
Definition cleanup_inactive_peers (now : Z) (st : State) : State :=
  with_connected_peers
    (map (fun e =>
            if (Peer.is_online (snd e) && timed_out now (snd e))%bool
            then (fst e, Peer.set_status offline (snd e))
            else e)
         (connected_peers st)) st.

(** ** Fallback upload, and the server as a transition system *)

Section Server.
(** [werkzeug.utils.secure_filename], a library function. *)
Variable secure_filename : string -> string.

(** [upload_file].  [file] is the [filename] of [request.files['file']],
    [None] without a file part.  [save_error] is [None] when the file is
    written.  Otherwise [os.makedirs] or [file.save] raised: [save_error]
    carries the message of the exception and whether [file.save] had already
    created the destination file, which then stays on disk. *)
Definition upload_file (transfer_id : string) (file : option string)
  (save_error : option (string * bool)) (now : Z) (st : State)
  : State * Response :=
  match dict_get transfer_id (active_transfers st) with
  | None => (st, http_error 404 "Transfer not found or not approved")
  | Some a0 =>
      match file with
      | None => (st, http_error 400 "No file part")
      | Some file_filename =>
          if String.eqb file_filename ""
          then (st, http_error 400 "No selected file")
          else
            let a1 := ActiveTransfer.set_transfer_mode server_relay
                        (ActiveTransfer.set_status "transferring" a0) in
            let st1 :=
              with_active_transfers
                (dict_set transfer_id a1 (active_transfers st)) st in
            let filename := secure_filename file_filename in
            let transfer_dir := os_path_join UPLOAD_FOLDER transfer_id in
            let file_path := os_path_join transfer_dir filename in
            match save_error with
            | Some (e, left_on_disk) =>
                ((if left_on_disk : bool
                  then with_files (file_save file_path (files st1)) st1
                  else st1),
                 http_error 500 e)
            | None =>
                let st2 := with_files (file_save file_path (files st1)) st1 in
                let a2 :=
                  ActiveTransfer.set_completed_at now
                    (ActiveTransfer.set_file_path file_path
                       (ActiveTransfer.set_progress 100
                          (ActiveTransfer.set_status "completed" a1))) in
                let st3 :=
                  with_active_transfers
                    (dict_set transfer_id a2 (active_transfers st2)) st2 in
                (sio_emit
                   (notify_first (ActiveTransfer.receiver_id a2)
                      (fun room => emit_transfer_completed room transfer_id
                                     (Some filename) server_relay)
                      (connected_peers st3)) st3,
                 resp_completed transfer_id filename)
            end
      end
  end.

(** Everything that can reach the server: the Socket.IO events, the HTTP
    routes and one pass of the cleanup thread. *)
Inductive Call :=
| call_connect (sid : string)
| call_disconnect (sid : string) (clock : nat -> Z)
| call_register_socket (sid : string) (peer_id : option string) (now : Z)
| call_peer_signal (target_peer_id sender_peer_id signal : option string)
    (uuid : string) (now : Z)
| call_relay_chunk (session_id chunk : option string) (index total : option Z)
| call_get_status
| call_connect_peer (user_id : option string) (remote_addr uuid : string)
    (now now' : Z)
| call_heartbeat (peer_id : string) (now : Z)
| call_get_peers (user_id : option string)
| call_request_file_transfer (sender_id receiver_id filename : option string)
    (uuid : string) (now : Z)
| call_approve_transfer (request_id uuid : string) (now : Z)
| call_upload_file (transfer_id : string) (file : option string)
    (save_error : option (string * bool)) (now : Z)
| call_download_file (transfer_id : string)
| call_get_transfer_status (transfer_id : string)
| call_update_transfer_status (transfer_id : string) (status : option string)
    (progress : option Z) (now : Z)
| call_cancel_transfer (transfer_id : string)
| call_disconnect_peer (peer_id : string) (now : Z)
| call_cleanup (now : Z).

Definition step (c : Call) (st : State) : State * Response :=
  match c with
  | call_connect _ => (st, sio_none)
  | call_disconnect sid clock => disconnect sid clock st
  | call_register_socket sid peer_id now => register_socket sid peer_id now st
  | call_peer_signal target sender signal uuid now =>
      peer_signal target sender signal uuid now st
  | call_relay_chunk session_id chunk index total =>
      relay_chunk session_id chunk index total st
  | call_get_status => get_status st
  | call_connect_peer user_id remote_addr uuid now now' =>
      connect_peer user_id remote_addr uuid now now' st
  | call_heartbeat peer_id now => heartbeat peer_id now st
  | call_get_peers user_id => get_peers user_id st
  | call_request_file_transfer sender_id receiver_id filename uuid now =>
      request_file_transfer sender_id receiver_id filename uuid now st
  | call_approve_transfer request_id uuid now =>
      approve_transfer request_id uuid now st
  | call_upload_file transfer_id file save_error now =>
      upload_file transfer_id file save_error now st
  | call_download_file transfer_id => download_file transfer_id st
  | call_get_transfer_status transfer_id => get_transfer_status transfer_id st
  | call_update_transfer_status transfer_id status progress now =>
      update_transfer_status transfer_id status progress now st
  | call_cancel_transfer transfer_id => cancel_transfer transfer_id st
  | call_disconnect_peer peer_id now => disconnect_peer peer_id now st
  | call_cleanup now => (cleanup_inactive_peers now st, sio_none)
  end.

(** The state after a sequence of calls, served one after the other. *)
Definition run (cs : list Call) (st : State) : State :=
  fold_left (fun s c => fst (step c s)) cs st.
End Server.

(** [approve_transfer] called once per generated id, on one request. *)
Definition approve_many (request_id : string) (uuids : list string) (now : Z)
  (st : State) : State :=
  fold_left (fun s u => fst (approve_transfer request_id u now s)) uuids st.

(** ** Sample states *)

(** A transfer that has completed. *)
Definition st_completed_transfer : State :=
  mkState [] []
    [("t1", ActiveTransfer.mk "r1" "completed" 100 5 "alice" "bob" "f.txt"
              p2p None (Some 9))]
    [] [] [].

(** A peer that disconnected after it had registered a socket. *)
Definition st_offline_peer : State :=
  mkState [("p1", Peer.mk "alice" "10.0.0.1" 0 offline 2 (Some "s1") (Some 3))]
    [] [] [] [] [].

(** An online peer with a registered socket, silent since time 0. *)
Definition st_online_peer : State :=
  mkState [("p1", Peer.mk "alice" "10.0.0.1" 0 online 0 (Some "s1") None)]
    [] [] [] [] [].

(** A relay session towards a peer the registry does not know. *)
Definition st_relay_to_unknown : State :=
  mkState [] [] []
    [("s1", RelaySession.mk (Some "p1") (Some "p2") initiated 4)] [] [].

(** A relay session towards a peer with a registered socket. *)
Definition st_relay_to_p1 : State :=
  mkState [("p1", Peer.mk "alice" "10.0.0.1" 0 online 0 (Some "s1") None)]
    [] []
    [("r1", RelaySession.mk (Some "p0") (Some "p1") initiated 4)] [] [].

(** A pending request of alice, who is online without a socket, a
    server-relay transfer whose payload is staged on disk, and a relay
    session. *)
Definition st_pending_request : State :=
  mkState [("p1", Peer.mk "alice" "10.0.0.1" 0 online 0 None None)]
    [("r1", TransferRequest.mk "alice" "bob" "f.txt" pending 1)]
    [("t1", ActiveTransfer.mk "r0" "completed" 100 5 "carol" "bob" "g.txt"
              server_relay (Some "transfers/t1/g.txt") (Some 9))]
    [("s1", RelaySession.mk (Some "p1") (Some "p2") initiated 4)]
    ["transfers/t1/g.txt"] [].

(** A day of traffic on that state. *)
Definition sample_calls : list Call :=
  [call_register_socket "sock1" (Some "p1") 2;
   call_approve_transfer "r1" "t2" 3;
   call_upload_file "t2" (Some "f.txt") None 4;
   call_cancel_transfer "t1";
   call_relay_chunk (Some "s1") (Some "bytes") (Some 0) (Some 1);
   call_disconnect_peer "p1" 5;
   call_disconnect "sock1" (fun _ => 6);
   call_cleanup 100000000].

(** A request of alice, whose only peer is offline and still has the
    socket it registered. *)
Definition st_offline_sender : State :=
  mkState [("p1", Peer.mk "alice" "10.0.0.1" 0 offline 2 (Some "s1") (Some 3))]
    [("r1", TransferRequest.mk "alice" "bob" "f.txt" pending 1)]
    [] [] [] [].

(** Two peers behind one socket (both registered ["s1"]). *)
Definition st_shared_socket : State :=
  mkState
    [("p1", Peer.mk "alice" "10.0.0.1" 0 online 0 (Some "s1") None);
     ("p2", Peer.mk "bob" "10.0.0.2" 0 online 0 (Some "s2") None);
     ("p3", Peer.mk "alice" "10.0.0.1" 0 online 0 (Some "s1") None)]
    [] [] [] [] [].

(** ** Registry growth: every key of a registry of [st] is a key of the
    same registry of [st']. *)
Definition grows (st st' : State) : Prop :=
  forall k,
    (dict_in k (connected_peers st) = true ->
     dict_in k (connected_peers st') = true)
    /\ (dict_in k (transfer_requests st) = true ->
        dict_in k (transfer_requests st') = true)
    /\ (dict_in k (active_transfers st) = true ->
        dict_in k (active_transfers st') = true)
    /\ (dict_in k (relay_sessions st) = true ->
        dict_in k (relay_sessions st') = true).

(** ** Insertion order: [d'] has the keys of [d], in the same order,
    followed by new ones, and is a dictionary (unique keys) if [d] is. *)
Definition keys_extend {V : Type} (d d' : dict V) : Prop :=
  (exists new, dict_keys d' = (dict_keys d ++ new)%list)
  /\ (NoDup (dict_keys d) -> NoDup (dict_keys d')).

Definition registries_extend (st st' : State) : Prop :=
  keys_extend (connected_peers st) (connected_peers st')
  /\ keys_extend (transfer_requests st) (transfer_requests st')
  /\ keys_extend (active_transfers st) (active_transfers st')
  /\ keys_extend (relay_sessions st) (relay_sessions st').

(** ** Proof automation for the growth lemmas *)

Create HintDb registry.

(** Case analysis on whatever the handler branches on, then one registry
    at a time. *)
Ltac break_branches :=
  repeat match goal with
         | |- context [match ?x with _ => _ end] => destruct x eqn:?
         end.

Ltac grows_by_cases :=
  cbv zeta; break_branches;
  intros k; simpl; repeat split; auto with registry.

(** Two devices of alice (the first without a socket), bob online with a
    socket, and carol offline with a stale socket; one ready transfer from
    alice to bob. *)
Definition st_many_peers : State :=
  mkState
    [("a1", Peer.mk "alice" "10.0.0.1" 0 online 0 None None);
     ("a2", Peer.mk "alice" "10.0.0.2" 0 online 0 (Some "sa2") None);
     ("b1", Peer.mk "bob" "10.0.0.3" 0 online 0 (Some "sb1") None);
     ("c1", Peer.mk "carol" "10.0.0.4" 0 offline 0 (Some "sc1") (Some 1))]
    [("r1", TransferRequest.mk "alice" "bob" "f.txt" approved 1)]
    [("t1", ActiveTransfer.mk "r1" "ready" 0 2 "alice" "bob" "f.txt"
              p2p None None)]
    [] [] [].


Ltac extends_by_cases :=
  cbv zeta; break_branches; unfold registries_extend; simpl;
  (split; [|split; [|split]]); auto with registry.

(** * Properties *)

(** ** Dictionary lemmas *)

Section DictFacts.
Context {V : Type}.
Implicit Types (d : dict V) (k : string) (v : V).

Lemma dict_get_set_eq k v d : dict_get k (dict_set k v d) = Some v.
Proof.
  induction d as [|[k' v'] r IH]; simpl.
  - now rewrite String.eqb_refl.
  - destruct (String.eqb k k') eqn:E; simpl; rewrite E; auto.
Qed.

Lemma dict_get_set_ne k k' v d :
  k <> k' -> dict_get k' (dict_set k v d) = dict_get k' d.
Proof.
  intros Hne. induction d as [|[k0 v0] r IH]; simpl.
  - destruct (String.eqb k' k) eqn:E; auto.
    apply String.eqb_eq in E. congruence.
  - destruct (String.eqb k k0) eqn:E; simpl.
    + apply String.eqb_eq in E. subst k0.
      destruct (String.eqb k' k) eqn:E'; auto.
      apply String.eqb_eq in E'. congruence.
    + now rewrite IH.
Qed.

Lemma dict_in_set_mono k k' v d :
  dict_in k' d = true -> dict_in k' (dict_set k v d) = true.
Proof.
  unfold dict_in. destruct (string_dec k k') as [->|Hne].
  - now rewrite dict_get_set_eq.
  - now rewrite dict_get_set_ne.
Qed.

Lemma dict_in_set_eq k v d : dict_in k (dict_set k v d) = true.
Proof. unfold dict_in. now rewrite dict_get_set_eq. Qed.

(** Assigning to a key the dictionary does not have adds one entry. *)
Lemma dict_set_fresh_length k v d :
  dict_get k d = None -> List.length (dict_set k v d) = S (List.length d).
Proof.
  induction d as [|[k' v'] r IH]; simpl; auto.
  destruct (String.eqb k k'); [discriminate|]. intros H. simpl. now rewrite IH.
Qed.

(** A loop that mutates some of the visited entries in place: every key
    stays, with its value mutated or not. *)
Lemma dict_get_map_cond (c : V -> bool) (h : V -> V) k d :
  dict_get k (map (fun e => if c (snd e) then (fst e, h (snd e)) else e) d)
  = option_map (fun v => if c v then h v else v) (dict_get k d).
Proof.
  induction d as [|[k' v'] r IH]; simpl; auto.
  destruct (c v') eqn:E; simpl; destruct (String.eqb k k'); simpl;
    rewrite ?E; auto.
Qed.

Lemma dict_keys_map_cond (c : V -> bool) (h : V -> V) d :
  dict_keys (map (fun e => if c (snd e) then (fst e, h (snd e)) else e) d)
  = dict_keys d.
Proof.
  unfold dict_keys. induction d as [|[k' v'] r IH]; simpl; auto.
  destruct (c v'); simpl; now rewrite IH.
Qed.
End DictFacts.

Lemma os_path_exists_remove path fs :
  os_path_exists path (os_remove path fs) = false.
Proof.
  unfold os_path_exists, os_remove. induction fs as [|f r IH]; simpl; auto.
  destruct (String.eqb path f) eqn:E; simpl; auto. now rewrite E.
Qed.


(** ** Terminal transfers (C1) *)

(** C1, counterexample.  The transfer ["t1"] is already ['completed'].
    [update_transfer_status] accepts the call and overwrites status and
    progress, and [cancel_transfer] accepts the call and makes the transfer
    ['cancelled']: neither call is rejected, and the fields change. *)
Lemma terminal_transfer_is_mutated :
  option_map ActiveTransfer.status
    (dict_get "t1" (active_transfers st_completed_transfer))
  = Some "completed"
  /\ snd (update_transfer_status "t1" (Some "transferring") (Some 50) 20
            st_completed_transfer) = resp_updated
  /\ dict_get "t1"
       (active_transfers
          (fst (update_transfer_status "t1" (Some "transferring") (Some 50) 20
                  st_completed_transfer)))
     = Some (ActiveTransfer.mk "r1" "transferring" 50 5 "alice" "bob" "f.txt"
               p2p None (Some 9))
  /\ snd (cancel_transfer "t1" st_completed_transfer) = resp_cancelled "t1"
  /\ option_map ActiveTransfer.status
       (dict_get "t1"
          (active_transfers (fst (cancel_transfer "t1" st_completed_transfer))))
     = Some "cancelled".
Proof. repeat split; reflexivity. Qed.

(** C1, amended.  On a transfer whose status is already ['completed'] or
    ['cancelled'], [update_transfer_status] with status and progress in the
    body answers 'updated', stores the posted status and progress, stamps
    ['completed_at'] when the posted status is ['completed'] and leaves
    ['completed_at'] alone otherwise, and keeps every other field of the
    transfer; [cancel_transfer] answers 'cancelled', makes the status
    ['cancelled'] and keeps every other field of the transfer. *)
Theorem terminal_transfer_update_and_cancel
  (transfer_id s : string) (p now : Z) (st : State) (a : ActiveTransfer.t) :
  dict_get transfer_id (active_transfers st) = Some a ->
  ActiveTransfer.status a = "completed"
  \/ ActiveTransfer.status a = "cancelled" ->
  (snd (update_transfer_status transfer_id (Some s) (Some p) now st)
   = resp_updated
   /\ dict_get transfer_id
        (active_transfers
           (fst (update_transfer_status transfer_id (Some s) (Some p) now st)))
      = Some (ActiveTransfer.mk
                (ActiveTransfer.request_id a) s p (ActiveTransfer.created_at a)
                (ActiveTransfer.sender_id a) (ActiveTransfer.receiver_id a)
                (ActiveTransfer.filename a) (ActiveTransfer.transfer_mode a)
                (ActiveTransfer.file_path a)
                (if String.eqb s "completed" then Some now
                 else ActiveTransfer.completed_at a)))
  /\ (snd (cancel_transfer transfer_id st) = resp_cancelled transfer_id
      /\ dict_get transfer_id
           (active_transfers (fst (cancel_transfer transfer_id st)))
         = Some (ActiveTransfer.mk
                   (ActiveTransfer.request_id a) "cancelled"
                   (ActiveTransfer.progress a) (ActiveTransfer.created_at a)
                   (ActiveTransfer.sender_id a) (ActiveTransfer.receiver_id a)
                   (ActiveTransfer.filename a) (ActiveTransfer.transfer_mode a)
                   (ActiveTransfer.file_path a)
                   (ActiveTransfer.completed_at a))).
Proof.
  intros Hget _. split.
  - unfold update_transfer_status. rewrite Hget.
    destruct (String.eqb s "completed"); simpl;
      split; auto; now rewrite dict_get_set_eq.
  - unfold cancel_transfer. rewrite Hget. split; auto.
    destruct a as [rid s0 p0 c0 snd0 rcv0 fn0 [|] [f|] ca0]; simpl;
      try destruct (os_path_exists f (files st)); simpl;
      now rewrite dict_get_set_eq.
Qed.

Lemma terminal_transfer_update_and_cancel_witness :
  (snd (update_transfer_status "t1" (Some "transferring") (Some 50) 20
          st_completed_transfer) = resp_updated
   /\ dict_get "t1"
        (active_transfers
           (fst (update_transfer_status "t1" (Some "transferring") (Some 50) 20
                   st_completed_transfer)))
      = Some (ActiveTransfer.mk "r1" "transferring" 50 5 "alice" "bob" "f.txt"
                p2p None (Some 9)))
  /\ (snd (cancel_transfer "t1" st_completed_transfer) = resp_cancelled "t1"
      /\ dict_get "t1"
           (active_transfers (fst (cancel_transfer "t1" st_completed_transfer)))
         = Some (ActiveTransfer.mk "r1" "cancelled" 100 5 "alice" "bob" "f.txt"
                   p2p None (Some 9))).
Proof.
  apply (terminal_transfer_update_and_cancel "t1" "transferring" 50 20
           st_completed_transfer
           (ActiveTransfer.mk "r1" "completed" 100 5 "alice" "bob" "f.txt"
              p2p None (Some 9))).
  - reflexivity.
  - left. reflexivity.
Defined.

(** ** Signal routing (C2) *)

(** C2, counterexample.  The target ["p1"] is known, has a socket and is
    ['offline'], so it is not "online with an attached channel"; still the
    signal is forwarded to its socket, the answer is 'success' and no relay
    session is created.  And with an unknown target the answer is
    [{'status': 'relay', 'message': ...}], which names no session. *)
Lemma peer_signal_ignores_status :
  option_map Peer.status (dict_get "p1" (connected_peers st_offline_peer))
  = Some offline
  /\ peer_signal (Some "p1") (Some "p0") (Some "offer") "u1" 10 st_offline_peer
     = (sio_emit [emit_peer_signal "s1" (Some "p0") (Some "offer")]
          st_offline_peer,
        sio_success)
  /\ relay_sessions
       (fst (peer_signal (Some "p1") (Some "p0") (Some "offer") "u1" 10
               st_offline_peer)) = []
  /\ snd (peer_signal (Some "p9") (Some "p0") (Some "offer") "u1" 10
            st_offline_peer)
     = sio_relay "Target peer unavailable, using relay".
Proof. repeat split; reflexivity. Qed.

(** C2, amended.  If the target peer is known and has a socket, whatever
    its status, [peer_signal] forwards the signal unchanged to that socket,
    tagged with the sender's peer id, changes nothing else and answers
    'success'.  If the target is missing, unknown or has no socket, the call
    does not fail: it stores under the generated id a relay session in status
    ['initiated'] between sender and target, leaves the other three
    registries alone, answers 'relay', and sends the session id in a
    'relay_initiated' event to the sender's socket when the sender is known
    and has one. *)
Theorem peer_signal_routes
  (target sender signal : option string) (uuid : string) (now : Z)
  (st : State) :
  (forall k p sock,
      target = Some k ->
      dict_get k (connected_peers st) = Some p ->
      Peer.socket_id p = Some sock ->
      peer_signal target sender signal uuid now st
      = (sio_emit [emit_peer_signal sock sender signal] st, sio_success))
  /\ ((forall k p,
          target = Some k ->
          dict_get k (connected_peers st) = Some p ->
          Peer.socket_id p = None) ->
      snd (peer_signal target sender signal uuid now st)
      = sio_relay "Target peer unavailable, using relay"
      /\ relay_sessions (fst (peer_signal target sender signal uuid now st))
         = dict_set uuid (RelaySession.mk sender target initiated now)
             (relay_sessions st)
      /\ dict_get uuid
           (relay_sessions (fst (peer_signal target sender signal uuid now st)))
         = Some (RelaySession.mk sender target initiated now)
      /\ connected_peers (fst (peer_signal target sender signal uuid now st))
         = connected_peers st
      /\ transfer_requests (fst (peer_signal target sender signal uuid now st))
         = transfer_requests st
      /\ active_transfers (fst (peer_signal target sender signal uuid now st))
         = active_transfers st
      /\ emitted (fst (peer_signal target sender signal uuid now st))
         = (emitted st
            ++ match socket_of sender (connected_peers st) with
               | Some s => [emit_relay_initiated s uuid target]
               | None => []
               end)%list).
Proof.
  split.
  - intros k p sock -> Hget Hsock. unfold peer_signal, socket_of.
    now rewrite Hget, Hsock.
  - intros Hno.
    assert (Hs : socket_of target (connected_peers st) = None).
    { unfold socket_of. destruct target as [k|]; auto.
      destruct (dict_get k (connected_peers st)) as [p|] eqn:E; auto.
      now apply (Hno k p). }
    unfold peer_signal, initiate_relay. rewrite Hs. simpl.
    destruct (socket_of sender (connected_peers st)) as [s|]; simpl;
      rewrite ?dict_get_set_eq, ?app_nil_r; repeat split; reflexivity.
Qed.

Lemma peer_signal_routes_witness :
  peer_signal (Some "p1") (Some "p0") (Some "offer") "u1" 10 st_offline_peer
  = (sio_emit [emit_peer_signal "s1" (Some "p0") (Some "offer")]
       st_offline_peer, sio_success)
  /\ dict_get "u1"
       (relay_sessions
          (fst (peer_signal (Some "p9") (Some "p1") (Some "offer") "u1" 10
                  st_offline_peer)))
     = Some (RelaySession.mk (Some "p1") (Some "p9") initiated 10).
Proof.
  split.
  - apply (proj1 (peer_signal_routes (Some "p1") (Some "p0") (Some "offer")
                    "u1" 10 st_offline_peer)
             "p1" (Peer.mk "alice" "10.0.0.1" 0 offline 2 (Some "s1") (Some 3))
             "s1"); reflexivity.
  - apply (proj2 (peer_signal_routes (Some "p9") (Some "p1") (Some "offer")
                    "u1" 10 st_offline_peer)).
    intros k p Hk Hget. injection Hk as <-. simpl in Hget. discriminate.
Defined.

(** ** Relayed chunks (C3, C9) *)

(** C3, counterexample.  The session ["s1"] is known and the chunk is the
    last one ([index = 0 = total - 1]), but the receiver has no socket: the
    answer is 'queued' and the session stays ['initiated']. *)
Lemma relay_chunk_last_chunk_not_completed :
  relay_chunk (Some "s1") (Some "bytes") (Some 0) (Some 1) st_relay_to_unknown
  = (st_relay_to_unknown, sio_queued "Receiver offline, chunk queued")
  /\ option_map RelaySession.status
       (dict_get "s1"
          (relay_sessions
             (fst (relay_chunk (Some "s1") (Some "bytes") (Some 0) (Some 1)
                     st_relay_to_unknown))))
     = Some initiated.
Proof. split; reflexivity. Qed.

(** C3, amended.  With a missing or unknown session id [relay_chunk]
    answers the error 'Invalid relay session' and changes nothing.  For a
    known session whose receiver is a known peer with a socket, a call with
    [index = total - 1] forwards the chunk to that socket, answers 'success'
    and makes the session ['completed'].  For a known session whose receiver
    has no socket the call answers 'queued' and changes nothing, whatever the
    index. *)
Theorem relay_chunk_outcomes
  (session_id chunk : option string) (index total : option Z) (st : State) :
  ((session_id = None
    \/ exists k, session_id = Some k /\ dict_get k (relay_sessions st) = None) ->
   relay_chunk session_id chunk index total st
   = (st, sio_error "Invalid relay session"))
  /\ (forall k s r p sock i n,
         session_id = Some k ->
         dict_get k (relay_sessions st) = Some s ->
         RelaySession.receiver_id s = Some r ->
         dict_get r (connected_peers st) = Some p ->
         Peer.socket_id p = Some sock ->
         index = Some i -> total = Some n -> i = n - 1 ->
         snd (relay_chunk session_id chunk index total st) = sio_success
         /\ dict_get k
              (relay_sessions (fst (relay_chunk session_id chunk index total st)))
            = Some (RelaySession.mk (RelaySession.sender_id s)
                      (RelaySession.receiver_id s) completed
                      (RelaySession.created_at s))
         /\ emitted (fst (relay_chunk session_id chunk index total st))
            = (emitted st ++ [emit_relay_chunk sock k chunk index total])%list)
  /\ (forall k s,
         session_id = Some k ->
         dict_get k (relay_sessions st) = Some s ->
         socket_of (RelaySession.receiver_id s) (connected_peers st) = None ->
         relay_chunk session_id chunk index total st
         = (st, sio_queued "Receiver offline, chunk queued")).
Proof.
  split; [|split].
  - intros [->|[k [-> Hget]]]; simpl; auto. now rewrite Hget.
  - intros k s r p sock i n -> Hget Hr Hp Hsock -> -> ->.
    unfold relay_chunk, socket_of. rewrite Hget, Hr, Hp, Hsock, Z.eqb_refl.
    simpl. rewrite dict_get_set_eq. unfold RelaySession.set_status.
    rewrite Hr. repeat split; reflexivity.
  - intros k s -> Hget Hs. unfold relay_chunk. now rewrite Hget, Hs.
Qed.

Lemma relay_chunk_outcomes_witness :
  relay_chunk (Some "zz") (Some "bytes") (Some 0) (Some 1) st_relay_to_p1
  = (st_relay_to_p1, sio_error "Invalid relay session")
  /\ option_map RelaySession.status
       (dict_get "r1"
          (relay_sessions
             (fst (relay_chunk (Some "r1") (Some "bytes") (Some 0) (Some 1)
                     st_relay_to_p1))))
     = Some completed
  /\ relay_chunk (Some "s1") (Some "bytes") (Some 0) (Some 1)
       st_relay_to_unknown
     = (st_relay_to_unknown, sio_queued "Receiver offline, chunk queued").
Proof.
  split; [|split].
  - apply (proj1 (relay_chunk_outcomes (Some "zz") (Some "bytes") (Some 0)
                    (Some 1) st_relay_to_p1)).
    right. exists "zz". split; reflexivity.
  - destruct (proj1 (proj2 (relay_chunk_outcomes (Some "r1") (Some "bytes")
                              (Some 0) (Some 1) st_relay_to_p1))
                "r1" (RelaySession.mk (Some "p0") (Some "p1") initiated 4)
                "p1" (Peer.mk "alice" "10.0.0.1" 0 online 0 (Some "s1") None)
                "s1" 0 1
                eq_refl eq_refl eq_refl eq_refl eq_refl eq_refl eq_refl eq_refl)
      as [_ [Hget _]].
    rewrite Hget. reflexivity.
  - apply (proj2 (proj2 (relay_chunk_outcomes (Some "s1") (Some "bytes")
                           (Some 0) (Some 1) st_relay_to_unknown))
             "s1" (RelaySession.mk (Some "p1") (Some "p2") initiated 4));
      reflexivity.
Defined.

(** C9.  For a known session whose receiver has no socket (the receiver
    id is missing, or is not a known peer, or the peer has no ['socket_id']),
    [relay_chunk] with the final chunk ([index = total - 1]) answers 'queued'
    and returns the state it was given: the session's status and every other
    field of every relay session are unchanged. *)
Theorem relay_chunk_queued_final_chunk
  (k : string) (s : RelaySession.t) (chunk : option string) (i n : Z)
  (st : State) :
  dict_get k (relay_sessions st) = Some s ->
  socket_of (RelaySession.receiver_id s) (connected_peers st) = None ->
  i = n - 1 ->
  snd (relay_chunk (Some k) chunk (Some i) (Some n) st)
  = sio_queued "Receiver offline, chunk queued"
  /\ fst (relay_chunk (Some k) chunk (Some i) (Some n) st) = st
  /\ relay_sessions (fst (relay_chunk (Some k) chunk (Some i) (Some n) st))
     = relay_sessions st
  /\ dict_get k
       (relay_sessions (fst (relay_chunk (Some k) chunk (Some i) (Some n) st)))
     = Some s.
Proof.
  intros Hget Hs _. unfold relay_chunk. rewrite Hget, Hs. simpl.
  repeat split; auto.
Qed.

Lemma relay_chunk_queued_final_chunk_witness :
  snd (relay_chunk (Some "s1") (Some "bytes") (Some 0) (Some 1)
         st_relay_to_unknown)
  = sio_queued "Receiver offline, chunk queued"
  /\ fst (relay_chunk (Some "s1") (Some "bytes") (Some 0) (Some 1)
            st_relay_to_unknown) = st_relay_to_unknown
  /\ relay_sessions
       (fst (relay_chunk (Some "s1") (Some "bytes") (Some 0) (Some 1)
               st_relay_to_unknown))
     = relay_sessions st_relay_to_unknown
  /\ dict_get "s1"
       (relay_sessions
          (fst (relay_chunk (Some "s1") (Some "bytes") (Some 0) (Some 1)
                  st_relay_to_unknown)))
     = Some (RelaySession.mk (Some "p1") (Some "p2") initiated 4).
Proof.
  apply (relay_chunk_queued_final_chunk "s1"
           (RelaySession.mk (Some "p1") (Some "p2") initiated 4)
           (Some "bytes") 0 1 st_relay_to_unknown); reflexivity.
Defined.

(** ** Explicit disconnect (C4) *)

(** C4, counterexample.  The peer ["p1"] has the socket ["s1"]; after
    [disconnect_peer] it is ['offline'] with ['disconnected_at'] set, and its
    ['socket_id'] is still ["s1"]. *)
Lemma disconnect_peer_keeps_socket :
  option_map Peer.socket_id (dict_get "p1" (connected_peers st_online_peer))
  = Some (Some "s1")
  /\ snd (disconnect_peer "p1" 10 st_online_peer) = resp_disconnected "p1"
  /\ dict_get "p1" (connected_peers (fst (disconnect_peer "p1" 10 st_online_peer)))
     = Some (Peer.mk "alice" "10.0.0.1" 0 offline 0 (Some "s1") (Some 10)).
Proof. repeat split; reflexivity. Qed.

(** C4, amended.  For a known peer id [disconnect_peer] sets the status
    to ['offline'] and ['disconnected_at'] to the current time and keeps every
    other field of the peer, ['socket_id'] included; for an unknown peer id
    it answers 404 'Peer not found' and changes nothing. *)
Theorem disconnect_peer_outcome (peer_id : string) (now : Z) (st : State) :
  (forall p,
      dict_get peer_id (connected_peers st) = Some p ->
      snd (disconnect_peer peer_id now st) = resp_disconnected peer_id
      /\ dict_get peer_id (connected_peers (fst (disconnect_peer peer_id now st)))
         = Some (Peer.mk (Peer.user_id p) (Peer.ip p) (Peer.connected_at p)
                   offline (Peer.last_seen p) (Peer.socket_id p) (Some now)))
  /\ (dict_get peer_id (connected_peers st) = None ->
      disconnect_peer peer_id now st = (st, http_error 404 "Peer not found")).
Proof.
  unfold disconnect_peer. split.
  - intros p Hget. rewrite Hget. simpl. now rewrite dict_get_set_eq.
  - intros Hget. now rewrite Hget.
Qed.

Lemma disconnect_peer_outcome_witness :
  (snd (disconnect_peer "p1" 10 st_online_peer) = resp_disconnected "p1"
   /\ dict_get "p1" (connected_peers (fst (disconnect_peer "p1" 10 st_online_peer)))
      = Some (Peer.mk "alice" "10.0.0.1" 0 offline 0 (Some "s1") (Some 10)))
  /\ disconnect_peer "p7" 10 st_online_peer
     = (st_online_peer, http_error 404 "Peer not found").
Proof.
  split.
  - apply (proj1 (disconnect_peer_outcome "p1" 10 st_online_peer)
             (Peer.mk "alice" "10.0.0.1" 0 online 0 (Some "s1") None)).
    reflexivity.
  - apply (proj2 (disconnect_peer_outcome "p7" 10 st_online_peer)).
    reflexivity.
Defined.

(** ** The liveness sweep (C5) *)

(** C5.  After one pass of the sweep at time [now], a peer that was
    ['online'] and whose [now - last_seen] exceeds 60 seconds is ['offline'];
    every other peer (already offline, or seen within the last 60 seconds)
    has the status it had.  No other field of any peer changes, so a demoted
    peer keeps its ['socket_id'].  The sweep keeps the keys of the registry
    and touches nothing else in the state. *)
Theorem cleanup_demotes_exactly_timed_out
  (now : Z) (st : State) (k : string) (p : Peer.t) :
  dict_get k (connected_peers st) = Some p ->
  exists p',
    dict_get k (connected_peers (cleanup_inactive_peers now st)) = Some p'
    /\ (Peer.status p = online /\ 60 * 1000000 < now - Peer.last_seen p ->
        Peer.status p' = offline)
    /\ (~ (Peer.status p = online /\ 60 * 1000000 < now - Peer.last_seen p) ->
        Peer.status p' = Peer.status p)
    /\ Peer.user_id p' = Peer.user_id p
    /\ Peer.ip p' = Peer.ip p
    /\ Peer.connected_at p' = Peer.connected_at p
    /\ Peer.last_seen p' = Peer.last_seen p
    /\ Peer.socket_id p' = Peer.socket_id p
    /\ Peer.disconnected_at p' = Peer.disconnected_at p
    /\ dict_keys (connected_peers (cleanup_inactive_peers now st))
       = dict_keys (connected_peers st)
    /\ transfer_requests (cleanup_inactive_peers now st) = transfer_requests st
    /\ active_transfers (cleanup_inactive_peers now st) = active_transfers st
    /\ relay_sessions (cleanup_inactive_peers now st) = relay_sessions st.
Proof.
  intros Hget. unfold cleanup_inactive_peers. simpl.
  rewrite (dict_get_map_cond
             (fun q => (Peer.is_online q && timed_out now q)%bool)
             (Peer.set_status offline)), Hget. simpl.
  rewrite (dict_keys_map_cond
             (fun q => (Peer.is_online q && timed_out now q)%bool)
             (Peer.set_status offline)).
  eexists. split; [reflexivity|].
  unfold Peer.is_online, timed_out.
  destruct (Peer.status p) eqn:Est; cbn [andb].
  - destruct (Z.ltb_spec (60 * 1000000) (now - Peer.last_seen p));
      cbn [Peer.status Peer.set_status]; repeat split; auto.
    + intros Hn. exfalso. apply Hn. split; [reflexivity|lia].
    + intros [_ Hlt]. lia.
  - repeat split; auto.
Qed.

Lemma cleanup_demotes_exactly_timed_out_witness :
  exists p',
    dict_get "p1" (connected_peers (cleanup_inactive_peers 60000001 st_online_peer))
    = Some p'
    /\ Peer.status p' = offline
    /\ Peer.socket_id p' = Some "s1".
Proof.
  destruct (cleanup_demotes_exactly_timed_out 60000001 st_online_peer "p1"
              (Peer.mk "alice" "10.0.0.1" 0 online 0 (Some "s1") None)
              eq_refl)
    as [p' [Hget [Hdem [_ [_ [_ [_ [_ [Hsock _]]]]]]]]].
  exists p'. split; [exact Hget|]. split.
  - apply Hdem. simpl. split; [reflexivity|lia].
  - exact Hsock.
Defined.

Example cleanup_keeps_peer_at_60_seconds :
  option_map Peer.status
    (dict_get "p1" (connected_peers (cleanup_inactive_peers 60000000 st_online_peer)))
  = Some online.
Proof. reflexivity. Qed.

(** ** Approval (C6, C8) *)

(** The flag the first-match loop computes: some online peer of [user]. *)
Lemma first_online_found (user : string) (peers : dict Peer.t) :
  (exists e, first_online user peers = Some e)
  <-> (exists k p, In (k, p) peers
                   /\ Peer.user_id p = user /\ Peer.status p = online).
Proof.
  unfold first_online. split.
  - intros [[k p] Hf]. apply find_some in Hf as [Hin Hb]. simpl in Hb.
    apply andb_true_iff in Hb as [Hu Ho]. apply String.eqb_eq in Hu.
    exists k, p. repeat split; auto.
    unfold Peer.is_online in Ho. destruct (Peer.status p); congruence.
  - intros [k [p [Hin [Hu Ho]]]].
    destruct (find _ peers) as [e|] eqn:Hf; [now exists e|].
    apply (find_none _ _ Hf) in Hin. simpl in Hin.
    unfold Peer.is_online in Hin. rewrite Ho, Hu, String.eqb_refl in Hin.
    discriminate.
Qed.

(** What [approve_transfer] does to the registries of a known request. *)
Lemma approve_transfer_known
  (request_id uuid : string) (now : Z) (st : State) (r : TransferRequest.t) :
  dict_get request_id (transfer_requests st) = Some r ->
  transfer_requests (fst (approve_transfer request_id uuid now st))
  = dict_set request_id (TransferRequest.set_status approved r)
      (transfer_requests st)
  /\ active_transfers (fst (approve_transfer request_id uuid now st))
     = dict_set uuid
         (ActiveTransfer.mk request_id "ready" 0 now
            (TransferRequest.sender_id r) (TransferRequest.receiver_id r)
            (TransferRequest.filename r) p2p None None)
         (active_transfers st)
  /\ connected_peers (fst (approve_transfer request_id uuid now st))
     = connected_peers st
  /\ snd (approve_transfer request_id uuid now st)
     = resp_approved uuid
         (match first_online (TransferRequest.sender_id r) (connected_peers st)
          with Some _ => true | None => false end).
Proof.
  intros Hget. unfold approve_transfer. rewrite Hget. simpl. auto.
Qed.

(** C6, counterexample.  The flag [approve_transfer] reports is not
    whether the sender is reachable.  In the first state the sender's only
    peer is online without a socket: the flag is true, yet the approval is
    announced to nobody and a signal addressed to that peer is not delivered
    (it falls back to relay).  In the second state the sender's only peer is
    offline with its socket still recorded: the flag is false, yet a signal
    addressed to that peer is forwarded to the socket. *)
Lemma approve_transfer_flag_is_not_reachability :
  (snd (approve_transfer "r1" "u1" 10 st_pending_request)
   = resp_approved "u1" true
   /\ socket_of (Some "p1") (connected_peers st_pending_request) = None
   /\ emitted (fst (approve_transfer "r1" "u1" 10 st_pending_request)) = []
   /\ snd (peer_signal (Some "p1") (Some "p0") (Some "offer") "u2" 11
             st_pending_request)
      = sio_relay "Target peer unavailable, using relay")
  /\ (snd (approve_transfer "r1" "u1" 10 st_offline_sender)
      = resp_approved "u1" false
      /\ peer_signal (Some "p1") (Some "p0") (Some "offer") "u2" 11
           st_offline_sender
         = (sio_emit [emit_peer_signal "s1" (Some "p0") (Some "offer")]
              st_offline_sender, sio_success)).
Proof. repeat split; reflexivity. Qed.

(** C6, amended.  For an unknown request id [approve_transfer] answers
    404 'Transfer request not found' and returns the state unchanged, so no
    active transfer is created.  For a known request id it marks the request
    ['approved'], stores under the generated transfer id an active transfer
    in status ['ready'] with progress 0 that carries the request's id,
    sender, receiver and filename, and answers with that transfer id and a
    flag that is true exactly when some peer of the sender is ['online'],
    whether or not that peer has a socket. *)
Theorem approve_transfer_outcome
  (request_id uuid : string) (now : Z) (st : State) :
  (dict_get request_id (transfer_requests st) = None ->
   approve_transfer request_id uuid now st
   = (st, http_error 404 "Transfer request not found")
   /\ active_transfers (fst (approve_transfer request_id uuid now st))
      = active_transfers st)
  /\ (forall r,
         dict_get request_id (transfer_requests st) = Some r ->
         dict_get request_id
           (transfer_requests (fst (approve_transfer request_id uuid now st)))
         = Some (TransferRequest.mk (TransferRequest.sender_id r)
                   (TransferRequest.receiver_id r) (TransferRequest.filename r)
                   approved (TransferRequest.created_at r))
         /\ dict_get uuid
              (active_transfers (fst (approve_transfer request_id uuid now st)))
            = Some (ActiveTransfer.mk request_id "ready" 0 now
                      (TransferRequest.sender_id r)
                      (TransferRequest.receiver_id r)
                      (TransferRequest.filename r) p2p None None)
         /\ exists sender_online,
             snd (approve_transfer request_id uuid now st)
             = resp_approved uuid sender_online
             /\ (sender_online = true
                 <-> exists k p,
                     In (k, p) (connected_peers st)
                     /\ Peer.user_id p = TransferRequest.sender_id r
                     /\ Peer.status p = online)).
Proof.
  split.
  - intros Hget. unfold approve_transfer. rewrite Hget. auto.
  - intros r Hget.
    destruct (approve_transfer_known request_id uuid now st r Hget)
      as [Hreq [Hact [_ Hresp]]].
    rewrite Hreq, Hact, Hresp, !dict_get_set_eq.
    repeat split; auto. eexists. split; [reflexivity|].
    rewrite <- first_online_found.
    destruct (first_online _ _) as [e|]; split; auto.
    + intros _. now exists e.
    + discriminate.
    + intros [e He]. discriminate.
Qed.

Lemma approve_transfer_outcome_witness :
  (approve_transfer "r9" "u1" 10 st_pending_request
   = (st_pending_request, http_error 404 "Transfer request not found")
   /\ active_transfers (fst (approve_transfer "r9" "u1" 10 st_pending_request))
      = active_transfers st_pending_request)
  /\ dict_get "u1"
       (active_transfers (fst (approve_transfer "r1" "u1" 10 st_pending_request)))
     = Some (ActiveTransfer.mk "r1" "ready" 0 10 "alice" "bob" "f.txt"
               p2p None None).
Proof.
  split.
  - apply (proj1 (approve_transfer_outcome "r9" "u1" 10 st_pending_request)).
    reflexivity.
  - apply (proj2 (approve_transfer_outcome "r1" "u1" 10 st_pending_request)
             (TransferRequest.mk "alice" "bob" "f.txt" pending 1)).
    reflexivity.
Defined.

(** ** Cancellation (C7) *)




(** [approve_transfer] writes the active-transfer registry at the generated
    id only. *)
Lemma approve_transfer_frame
  (request_id uuid : string) (now : Z) (st : State) (u : string) :
  uuid <> u ->
  dict_get u (active_transfers (fst (approve_transfer request_id uuid now st)))
  = dict_get u (active_transfers st).
Proof.
  intros Hne. unfold approve_transfer.
  destruct (dict_get request_id (transfer_requests st)); simpl; auto.
  now apply dict_get_set_ne.
Qed.

Lemma approve_many_frame
  (request_id : string) (uuids : list string) (now : Z) (st : State)
  (u : string) :
  ~ In u uuids ->
  dict_get u (active_transfers (approve_many request_id uuids now st))
  = dict_get u (active_transfers st).
Proof.
  revert st. induction uuids as [|u0 us IH]; intros st Hnin; simpl; auto.
  unfold approve_many in *. simpl. rewrite IH.
  - apply approve_transfer_frame. intros ->. apply Hnin. now left.
  - intros Hin. apply Hnin. now right.
Qed.

(** Approving a known request once per id of [uuids]: every id ends up
    naming a ready transfer of that request, and fresh distinct ids add one
    entry each. *)
Lemma approve_many_known
  (request_id : string) (uuids : list string) (now : Z) :
  forall (st : State) (r : TransferRequest.t),
    dict_get request_id (transfer_requests st) = Some r ->
    (forall u, In u uuids ->
               dict_get u (active_transfers
                             (approve_many request_id uuids now st))
               = Some (ActiveTransfer.mk request_id "ready" 0 now
                         (TransferRequest.sender_id r)
                         (TransferRequest.receiver_id r)
                         (TransferRequest.filename r) p2p None None))
    /\ (NoDup uuids ->
        (forall u, In u uuids -> dict_get u (active_transfers st) = None) ->
        List.length (active_transfers (approve_many request_id uuids now st))
        = (List.length (active_transfers st) + List.length uuids)%nat).
Proof.
  induction uuids as [|u0 us IH]; intros st r Hget.
  - simpl. split; [intros u []|]. intros _ _. now rewrite Nat.add_0_r.
  - destruct (approve_transfer_known request_id u0 now st r Hget)
      as [Hreq [Hact _]].
    assert (Hget1 :
              dict_get request_id
                (transfer_requests (fst (approve_transfer request_id u0 now st)))
              = Some (TransferRequest.set_status approved r))
      by (rewrite Hreq; apply dict_get_set_eq).
    destruct (IH _ _ Hget1) as [IHin IHlen].
    change (approve_many request_id (u0 :: us) now st)
      with (approve_many request_id us now
              (fst (approve_transfer request_id u0 now st))).
    split.
    + intros u Hin. destruct (in_dec string_dec u us) as [Hus|Hus].
      * apply (IHin u Hus).
      * destruct Hin as [->|Hin]; [|contradiction].
        rewrite approve_many_frame by exact Hus.
        rewrite Hact. apply dict_get_set_eq.
    + intros Hnd Hfresh. inversion Hnd as [|? ? Hnin Hnd']; subst.
      rewrite IHlen; auto.
      * rewrite Hact, dict_set_fresh_length by (apply Hfresh; now left).
        simpl. lia.
      * intros u Hin. rewrite approve_transfer_frame.
        -- apply Hfresh. now right.
        -- intros ->. contradiction.
Qed.

(** C8.  A known request can be approved again.  After a first approval
    (which leaves the request ['approved']), a second [approve_transfer] of
    the same request with another generated id is answered 'approved' too,
    and both ids name active transfers of that request.  More generally,
    approving the request once per id of a list of distinct unused ids adds
    one active transfer per id, each ['ready'] and referencing the request:
    nothing limits the number of transfers of one request. *)
Theorem approve_transfer_repeats
  (request_id : string) (now : Z) (st : State) (r : TransferRequest.t) :
  dict_get request_id (transfer_requests st) = Some r ->
  (forall u1 u2 now2,
      u1 <> u2 ->
      option_map TransferRequest.status
        (dict_get request_id
           (transfer_requests (fst (approve_transfer request_id u1 now st))))
      = Some approved
      /\ (exists sender_online,
             snd (approve_transfer request_id u2 now2
                    (fst (approve_transfer request_id u1 now st)))
             = resp_approved u2 sender_online)
      /\ option_map ActiveTransfer.request_id
           (dict_get u1
              (active_transfers
                 (fst (approve_transfer request_id u2 now2
                         (fst (approve_transfer request_id u1 now st))))))
         = Some request_id
      /\ option_map ActiveTransfer.request_id
           (dict_get u2
              (active_transfers
                 (fst (approve_transfer request_id u2 now2
                         (fst (approve_transfer request_id u1 now st))))))
         = Some request_id)
  /\ (forall uuids,
         NoDup uuids ->
         (forall u, In u uuids -> dict_get u (active_transfers st) = None) ->
         List.length (active_transfers (approve_many request_id uuids now st))
         = (List.length (active_transfers st) + List.length uuids)%nat
         /\ forall u,
             In u uuids ->
             dict_get u (active_transfers (approve_many request_id uuids now st))
             = Some (ActiveTransfer.mk request_id "ready" 0 now
                       (TransferRequest.sender_id r)
                       (TransferRequest.receiver_id r)
                       (TransferRequest.filename r) p2p None None)).
Proof.
  intros Hget. split.
  - intros u1 u2 now2 Hne.
    destruct (approve_transfer_known request_id u1 now st r Hget)
      as [Hreq [Hact _]].
    assert (Hget1 :
              dict_get request_id
                (transfer_requests (fst (approve_transfer request_id u1 now st)))
              = Some (TransferRequest.set_status approved r))
      by (rewrite Hreq; apply dict_get_set_eq).
    destruct (approve_transfer_known request_id u2 now2 _ _ Hget1)
      as [_ [Hact2 [_ Hresp2]]].
    rewrite Hget1, Hresp2, Hact2, Hact.
    rewrite dict_get_set_eq, dict_get_set_ne, dict_get_set_eq by congruence.
    repeat split; auto. eexists. reflexivity.
  - intros uuids Hnd Hfresh.
    destruct (approve_many_known request_id uuids now st r Hget) as [Hin Hlen].
    split; auto.
Qed.

Lemma approve_transfer_repeats_witness :
  (option_map ActiveTransfer.request_id
     (dict_get "u1"
        (active_transfers
           (fst (approve_transfer "r1" "u2" 11
                   (fst (approve_transfer "r1" "u1" 10 st_pending_request))))))
   = Some "r1"
   /\ option_map ActiveTransfer.request_id
        (dict_get "u2"
           (active_transfers
              (fst (approve_transfer "r1" "u2" 11
                      (fst (approve_transfer "r1" "u1" 10 st_pending_request))))))
      = Some "r1")
  /\ List.length
       (active_transfers
          (approve_many "r1" ["u1"; "u2"; "u3"] 10 st_pending_request))
     = 4%nat.
Proof.
  pose proof (approve_transfer_repeats "r1" 10 st_pending_request
                (TransferRequest.mk "alice" "bob" "f.txt" pending 1) eq_refl)
    as [Htwice Hmany].
  split.
  - destruct (Htwice "u1" "u2" 11) as [_ [_ [H1 H2]]]; [discriminate|].
    split; assumption.
  - destruct (Hmany ["u1"; "u2"; "u3"]) as [Hlen _].
    + repeat constructor; simpl; intuition discriminate.
    + intros u [<-|[<-|[<-|[]]]]; reflexivity.
    + exact Hlen.
Defined.

(** ** Registries only grow (C10) *)

Lemma grows_refl (st : State) : grows st st.
Proof. intros k. auto. Qed.

Lemma grows_trans (st1 st2 st3 : State) :
  grows st1 st2 -> grows st2 st3 -> grows st1 st3.
Proof.
  intros H12 H23 k.
  destruct (H12 k) as [A1 [A2 [A3 A4]]], (H23 k) as [B1 [B2 [B3 B4]]].
  repeat split; auto.
Qed.

Lemma dict_in_map_cond {V : Type} (c : V -> bool) (h : V -> V) k (d : dict V) :
  dict_in k (map (fun e => if c (snd e) then (fst e, h (snd e)) else e) d)
  = dict_in k d.
Proof.
  unfold dict_in. rewrite dict_get_map_cond.
  destruct (dict_get k d) as [v|]; simpl; auto.
Qed.

#[local] Hint Resolve dict_in_set_mono : registry.

(** *** The marking loop of the channel-loss handler *)

Lemma socket_is_true (sid : string) (p : Peer.t) :
  socket_is sid p = true <-> Peer.socket_id p = Some sid.
Proof.
  unfold socket_is. destruct (Peer.socket_id p) as [s|].
  - rewrite String.eqb_eq. split; congruence.
  - split; discriminate.
Qed.

Lemma mark_offline_keys (sid : string) (clock : nat -> Z) (d : dict Peer.t) :
  forall i, dict_keys (mark_offline sid clock i d) = dict_keys d.
Proof.
  unfold dict_keys. induction d as [|[k p] r IH]; intros i; simpl; auto.
  destruct (socket_is sid p); simpl; now rewrite IH.
Qed.

Lemma mark_offline_in (sid : string) (clock : nat -> Z) (k : string)
  (d : dict Peer.t) :
  forall i, dict_in k (mark_offline sid clock i d) = dict_in k d.
Proof.
  unfold dict_in. induction d as [|[k' p] r IH]; intros i; simpl; auto.
  destruct (socket_is sid p); simpl; destruct (String.eqb k k'); auto.
Qed.

Lemma mark_offline_socket (sid : string) (clock : nat -> Z) (k : string)
  (d : dict Peer.t) :
  forall i, socket_of (Some k) (mark_offline sid clock i d)
            = socket_of (Some k) d.
Proof.
  unfold socket_of. induction d as [|[k' p] r IH]; intros i; simpl; auto.
  destruct (socket_is sid p); simpl; destruct (String.eqb k k'); auto.
Qed.

Lemma mark_offline_length (sid : string) (clock : nat -> Z) (d : dict Peer.t) :
  forall i, List.length (mark_offline sid clock i d) = List.length d.
Proof.
  induction d as [|[k p] r IH]; intros i; simpl; auto.
  destruct (socket_is sid p); simpl; now rewrite IH.
Qed.

Lemma disconnect_grows sid clock st : grows st (fst (disconnect sid clock st)).
Proof.
  intros k. unfold disconnect. simpl. rewrite mark_offline_in. auto.
Qed.

Lemma register_socket_grows sid peer_id now st :
  grows st (fst (register_socket sid peer_id now st)).
Proof. unfold register_socket. grows_by_cases. Qed.

Lemma peer_signal_grows target sender signal uuid now st :
  grows st (fst (peer_signal target sender signal uuid now st)).
Proof. unfold peer_signal, initiate_relay. grows_by_cases. Qed.

Lemma relay_chunk_grows session_id chunk index total st :
  grows st (fst (relay_chunk session_id chunk index total st)).
Proof. unfold relay_chunk. grows_by_cases. Qed.

Lemma connect_peer_grows user_id remote_addr uuid now now' st :
  grows st (fst (connect_peer user_id remote_addr uuid now now' st)).
Proof. unfold connect_peer. grows_by_cases. Qed.

Lemma heartbeat_grows peer_id now st :
  grows st (fst (heartbeat peer_id now st)).
Proof. unfold heartbeat. grows_by_cases. Qed.

Lemma request_file_transfer_grows sender_id receiver_id filename uuid now st :
  grows st
    (fst (request_file_transfer sender_id receiver_id filename uuid now st)).
Proof. unfold request_file_transfer. grows_by_cases. Qed.

Lemma approve_transfer_grows request_id uuid now st :
  grows st (fst (approve_transfer request_id uuid now st)).
Proof. unfold approve_transfer. grows_by_cases. Qed.

Lemma download_file_grows transfer_id st :
  grows st (fst (download_file transfer_id st)).
Proof. unfold download_file. grows_by_cases. Qed.

Lemma get_transfer_status_grows transfer_id st :
  grows st (fst (get_transfer_status transfer_id st)).
Proof. unfold get_transfer_status. grows_by_cases. Qed.

Lemma update_transfer_status_grows transfer_id status progress now st :
  grows st (fst (update_transfer_status transfer_id status progress now st)).
Proof. unfold update_transfer_status. grows_by_cases. Qed.

Lemma cancel_transfer_grows transfer_id st :
  grows st (fst (cancel_transfer transfer_id st)).
Proof. unfold cancel_transfer. grows_by_cases. Qed.

Lemma disconnect_peer_grows peer_id now st :
  grows st (fst (disconnect_peer peer_id now st)).
Proof. unfold disconnect_peer. grows_by_cases. Qed.

Lemma cleanup_inactive_peers_grows now st :
  grows st (cleanup_inactive_peers now st).
Proof.
  intros k. unfold cleanup_inactive_peers. simpl.
  rewrite (dict_in_map_cond
             (fun p => (Peer.is_online p && timed_out now p)%bool)
             (Peer.set_status offline)).
  auto.
Qed.

Lemma upload_file_grows secure_filename transfer_id file save_error now st :
  grows st (fst (upload_file secure_filename transfer_id file save_error now st)).
Proof. unfold upload_file. grows_by_cases. Qed.

Lemma step_grows secure_filename (c : Call) (st : State) :
  grows st (fst (step secure_filename c st)).
Proof.
  destruct c; unfold step;
    first [ apply disconnect_grows | apply register_socket_grows
          | apply peer_signal_grows | apply relay_chunk_grows
          | apply connect_peer_grows | apply heartbeat_grows
          | apply request_file_transfer_grows | apply approve_transfer_grows
          | apply upload_file_grows | apply download_file_grows
          | apply get_transfer_status_grows | apply update_transfer_status_grows
          | apply cancel_transfer_grows | apply disconnect_peer_grows
          | apply cleanup_inactive_peers_grows | apply grows_refl ].
Qed.

Lemma run_grows secure_filename (cs : list Call) :
  forall st, grows st (run secure_filename cs st).
Proof.
  induction cs as [|c cs IH]; intros st; [apply grows_refl|].
  change (run secure_filename (c :: cs) st)
    with (run secure_filename cs (fst (step secure_filename c st))).
  eapply grows_trans; [apply step_grows|apply IH].
Qed.

(** C10.  Whatever calls the server serves (Socket.IO events, the
    channel-loss handler among them, HTTP routes, passes of the cleanup
    task), in whatever order, an id that is a key of one of the four
    registries is still a key of that registry afterwards: the lookup of a
    known id never turns into 'not found'. *)
Theorem registries_only_grow
  (secure_filename : string -> string) (cs : list Call) (st : State)
  (k : string) :
  (dict_in k (connected_peers st) = true ->
   dict_in k (connected_peers (run secure_filename cs st)) = true)
  /\ (dict_in k (transfer_requests st) = true ->
      dict_in k (transfer_requests (run secure_filename cs st)) = true)
  /\ (dict_in k (active_transfers st) = true ->
      dict_in k (active_transfers (run secure_filename cs st)) = true)
  /\ (dict_in k (relay_sessions st) = true ->
      dict_in k (relay_sessions (run secure_filename cs st)) = true).
Proof. exact (run_grows secure_filename cs st k). Qed.

Lemma registries_only_grow_witness :
  dict_in "p1"
    (connected_peers (run (fun f => f) sample_calls st_pending_request)) = true
  /\ dict_in "r1"
       (transfer_requests (run (fun f => f) sample_calls st_pending_request))
     = true
  /\ dict_in "t1"
       (active_transfers (run (fun f => f) sample_calls st_pending_request))
     = true
  /\ dict_in "s1"
       (relay_sessions (run (fun f => f) sample_calls st_pending_request))
     = true.
Proof.
  split; [|split; [|split]].
  - apply (proj1 (registries_only_grow (fun f => f) sample_calls
                    st_pending_request "p1")). reflexivity.
  - apply (proj1 (proj2 (registries_only_grow (fun f => f) sample_calls
                           st_pending_request "r1"))). reflexivity.
  - apply (proj1 (proj2 (proj2 (registries_only_grow (fun f => f) sample_calls
                                  st_pending_request "t1")))). reflexivity.
  - apply (proj2 (proj2 (proj2 (registries_only_grow (fun f => f) sample_calls
                                  st_pending_request "s1")))). reflexivity.
Defined.

(** ** A transfer from request to completion, run on the empty server *)

Example scenario_transfer_completes :
  let st1 := fst (connect_peer (Some "u1") "10.0.0.1" "p1" 1 1 empty_state) in
  let rq := request_file_transfer (Some "u1") (Some "u2") (Some "f.txt")
              "r1" 2 st1 in
  let st3 := fst (approve_transfer "r1" "t1" 3 (fst rq)) in
  let st4 := fst (update_transfer_status "t1" (Some "completed") (Some 100) 4
                    st3) in
  snd rq = resp_pending "r1" false
  /\ option_map ActiveTransfer.status (dict_get "t1" (active_transfers st3))
     = Some "ready"
  /\ dict_get "t1" (active_transfers st4)
     = Some (ActiveTransfer.mk "r1" "completed" 100 3 "u1" "u2" "f.txt" p2p
               None (Some 4)).
Proof. repeat split; reflexivity. Qed.

(** * Further properties of the handlers *)

(** ** More dictionary and file-system facts *)

Lemma dict_set_In {V : Type} (k : string) (v : V) (d : dict V) :
  In (k, v) (dict_set k v d).
Proof.
  induction d as [|[k' v'] r IH]; simpl; auto.
  destruct (String.eqb k k') eqn:E; simpl; auto.
  apply String.eqb_eq in E. subst. auto.
Qed.

Lemma dict_set_length_le {V : Type} (k : string) (v : V) (d : dict V) :
  (List.length d <= List.length (dict_set k v d))%nat.
Proof.
  induction d as [|[k' v'] r IH]; simpl; auto.
  destruct (String.eqb k k'); simpl; lia.
Qed.

(** A loop whose test fails on every entry leaves the dictionary as it is. *)
Lemma map_cond_none {V : Type} (c : V -> bool) (h : V -> V) (d : dict V) :
  (forall k v, In (k, v) d -> c v = false) ->
  map (fun e => if c (snd e) then (fst e, h (snd e)) else e) d = d.
Proof.
  induction d as [|[k v] r IH]; intros Hc; simpl; auto.
  rewrite (Hc k v) by (now left). rewrite IH; auto.
  intros k' v' Hin. apply (Hc k' v'). now right.
Qed.

Lemma os_path_exists_save (path : string) (fs : list string) :
  os_path_exists path (file_save path fs) = true.
Proof.
  unfold file_save. destruct (os_path_exists path fs) eqn:E; auto.
  unfold os_path_exists. rewrite existsb_app. simpl.
  rewrite String.eqb_refl. apply orb_true_iff. right. reflexivity.
Qed.

Lemma sio_emit_nil (st : State) : sio_emit [] st = st.
Proof. destruct st. unfold sio_emit. simpl. now rewrite app_nil_r. Qed.

Lemma with_connected_peers_same (st : State) :
  with_connected_peers (connected_peers st) st = st.
Proof. now destruct st. Qed.

(** ** Socket registration *)

(** X1.  [register_socket] with a missing, empty or unknown peer id
    answers the error 'Invalid peer ID' and changes nothing.  With a known,
    non-empty peer id it answers 'success', stores the socket and refreshes
    ['last_seen']; the peer's status is not touched, so an offline peer that
    registers a socket stays offline. *)
Theorem register_socket_outcome
  (sid : string) (peer_id : option string) (now : Z) (st : State) :
  ((peer_id = None \/ peer_id = Some ""
    \/ exists k, peer_id = Some k /\ dict_get k (connected_peers st) = None) ->
   register_socket sid peer_id now st = (st, sio_error "Invalid peer ID"))
  /\ (forall k p,
         peer_id = Some k -> k <> "" ->
         dict_get k (connected_peers st) = Some p ->
         snd (register_socket sid peer_id now st) = sio_success
         /\ dict_get k (connected_peers (fst (register_socket sid peer_id now st)))
            = Some (Peer.mk (Peer.user_id p) (Peer.ip p) (Peer.connected_at p)
                      (Peer.status p) now (Some sid) (Peer.disconnected_at p))).
Proof.
  split.
  - intros [->|[->|[k [-> Hget]]]]; simpl; auto.
    rewrite Hget. now destruct (String.eqb k "").
  - intros k p -> Hne Hget. unfold register_socket.
    apply String.eqb_neq in Hne. rewrite Hne, Hget. simpl.
    now rewrite dict_get_set_eq.
Qed.

Lemma register_socket_outcome_witness :
  register_socket "s9" (Some "") 7 st_offline_peer
  = (st_offline_peer, sio_error "Invalid peer ID")
  /\ dict_get "p1"
       (connected_peers (fst (register_socket "s9" (Some "p1") 7 st_offline_peer)))
     = Some (Peer.mk "alice" "10.0.0.1" 0 offline 7 (Some "s9") (Some 3)).
Proof.
  split.
  - apply (proj1 (register_socket_outcome "s9" (Some "") 7 st_offline_peer)).
    right. left. reflexivity.
  - apply (proj2 (register_socket_outcome "s9" (Some "p1") 7 st_offline_peer)
             "p1" (Peer.mk "alice" "10.0.0.1" 0 offline 2 (Some "s1") (Some 3))).
    + reflexivity.
    + discriminate.
    + reflexivity.
Defined.

(** X2.  A second [register_socket] supersedes the first: after a peer
    registered [sid1] and then [sid2], a signal addressed to it is forwarded
    to [sid2], whatever the peer's status. *)
Theorem register_socket_supersedes
  (k sid1 sid2 : string) (t1 t2 now : Z) (sender signal : option string)
  (uuid : string) (st : State) (p : Peer.t) :
  k <> "" ->
  dict_get k (connected_peers st) = Some p ->
  let st2 := fst (register_socket sid2 (Some k) t2
                    (fst (register_socket sid1 (Some k) t1 st))) in
  peer_signal (Some k) sender signal uuid now st2
  = (sio_emit [emit_peer_signal sid2 sender signal] st2, sio_success).
Proof.
  intros Hne Hget. apply String.eqb_neq in Hne.
  unfold register_socket. rewrite Hne, Hget. simpl.
  rewrite dict_get_set_eq. simpl.
  unfold peer_signal, socket_of. simpl. now rewrite dict_get_set_eq.
Qed.

Lemma register_socket_supersedes_witness :
  snd (peer_signal (Some "p1") (Some "p0") (Some "offer") "u1" 9
         (fst (register_socket "new" (Some "p1") 8
                 (fst (register_socket "old" (Some "p1") 7 st_offline_peer)))))
  = sio_success
  /\ emitted
       (fst (peer_signal (Some "p1") (Some "p0") (Some "offer") "u1" 9
               (fst (register_socket "new" (Some "p1") 8
                       (fst (register_socket "old" (Some "p1") 7
                               st_offline_peer))))))
     = [emit_peer_signal "new" (Some "p0") (Some "offer")].
Proof.
  rewrite (register_socket_supersedes "p1" "old" "new" 7 8 9 (Some "p0")
             (Some "offer") "u1" st_offline_peer
             (Peer.mk "alice" "10.0.0.1" 0 offline 2 (Some "s1") (Some 3)));
    [split; reflexivity | discriminate | reflexivity].
Defined.

(** ** Heartbeat *)

(** X3.  [heartbeat] on an unknown peer answers 404 and changes nothing.
    On a known peer it sets the status to ['online'] (also for a peer that was
    offline or had disconnected) and ['last_seen'] to the current time and
    keeps the other fields; a sweep of the cleanup task at most 60 seconds
    later leaves that peer online. *)
Theorem heartbeat_keeps_alive (peer_id : string) (now : Z) (st : State) :
  (dict_get peer_id (connected_peers st) = None ->
   heartbeat peer_id now st = (st, http_error 404 "Peer not found"))
  /\ (forall p,
         dict_get peer_id (connected_peers st) = Some p ->
         snd (heartbeat peer_id now st) = resp_ok
         /\ dict_get peer_id (connected_peers (fst (heartbeat peer_id now st)))
            = Some (Peer.mk (Peer.user_id p) (Peer.ip p) (Peer.connected_at p)
                      online now (Peer.socket_id p) (Peer.disconnected_at p))
         /\ forall later,
             later - now <= 60 * 1000000 ->
             dict_get peer_id
               (connected_peers
                  (cleanup_inactive_peers later (fst (heartbeat peer_id now st))))
             = Some (Peer.mk (Peer.user_id p) (Peer.ip p) (Peer.connected_at p)
                       online now (Peer.socket_id p) (Peer.disconnected_at p))).
Proof.
  unfold heartbeat. split.
  - intros Hget. now rewrite Hget.
  - intros p Hget. rewrite Hget. simpl. rewrite dict_get_set_eq.
    repeat split; auto. intros later Hle.
    rewrite (dict_get_map_cond
               (fun q => (Peer.is_online q && timed_out later q)%bool)
               (Peer.set_status offline)), dict_get_set_eq.
    simpl. unfold timed_out. simpl.
    destruct (Z.ltb_spec 60000000 (later - now)); [lia|reflexivity].
Qed.

Lemma heartbeat_keeps_alive_witness :
  heartbeat "p7" 10 st_offline_peer
  = (st_offline_peer, http_error 404 "Peer not found")
  /\ dict_get "p1"
       (connected_peers
          (cleanup_inactive_peers 60000010 (fst (heartbeat "p1" 10 st_offline_peer))))
     = Some (Peer.mk "alice" "10.0.0.1" 0 online 10 (Some "s1") (Some 3)).
Proof.
  split.
  - apply (proj1 (heartbeat_keeps_alive "p7" 10 st_offline_peer)). reflexivity.
  - destruct (proj2 (heartbeat_keeps_alive "p1" 10 st_offline_peer)
                (Peer.mk "alice" "10.0.0.1" 0 offline 2 (Some "s1") (Some 3))
                eq_refl) as [_ [_ Hlater]].
    apply Hlater. lia.
Defined.

(** ** Channel loss *)

Lemma flat_map_filter {A B : Type} (f : A -> bool) (g : A -> B) (l : list A) :
  flat_map (fun e => if f e then [g e] else []) l = map g (filter f l).
Proof.
  induction l as [|a r IH]; simpl; auto.
  destruct (f a); simpl; now rewrite IH.
Qed.

Lemma mark_offline_get (sid : string) (clock : nat -> Z) (k : string)
  (p : Peer.t) (d : dict Peer.t) :
  forall i,
    dict_get k d = Some p ->
    (socket_is sid p = true ->
     exists j,
       (i <= j < i + List.length (filter (fun e => socket_is sid (snd e)) d))%nat
       /\ dict_get k (mark_offline sid clock i d)
          = Some (Peer.set_disconnected_at (clock j)
                    (Peer.set_status offline p)))
    /\ (socket_is sid p = false ->
        dict_get k (mark_offline sid clock i d) = Some p).
Proof.
  induction d as [|[k' q] r IH]; intros i; simpl; [discriminate|].
  destruct (socket_is sid q) eqn:Eq; simpl;
    destruct (String.eqb k k') eqn:Ek.
  - intros [= <-]. split; [|congruence]. intros _. exists i. split; [lia|auto].
  - intros Hget. destruct (IH (S i) Hget) as [Hm Hk]. split; auto.
    intros Hp. destruct (Hm Hp) as [j [Hj Hg]]. exists j. split; [lia|auto].
  - intros [= <-]. split; [congruence|auto].
  - intros Hget. apply (IH i Hget).
Qed.

Lemma mark_offline_stamps (sid : string) (clock : nat -> Z) (d : dict Peer.t) :
  forall i,
    map (fun e => Peer.disconnected_at (snd e))
        (filter (fun e => socket_is sid (snd e)) (mark_offline sid clock i d))
    = map (fun j => Some (clock j))
          (seq i (List.length (filter (fun e => socket_is sid (snd e)) d))).
Proof.
  induction d as [|[k q] r IH]; intros i; simpl; auto.
  destruct (socket_is sid q) eqn:Eq; simpl.
  - change (socket_is sid
              (Peer.set_disconnected_at (clock i) (Peer.set_status offline q)))
      with (socket_is sid q).
    rewrite Eq. simpl. now rewrite IH.
  - rewrite Eq. apply IH.
Qed.

Lemma mark_offline_none (sid : string) (clock : nat -> Z) (d : dict Peer.t) :
  forall i,
    filter (fun e => socket_is sid (snd e)) d = [] ->
    mark_offline sid clock i d = d.
Proof.
  induction d as [|[k q] r IH]; intros i; simpl; auto.
  destruct (socket_is sid q); [discriminate|]. intros H. now rewrite IH.
Qed.

(** X4.  The channel-loss handler [disconnect(sid)] keeps the ids of the
    peer registry and marks exactly the peers whose socket is [sid]: each
    becomes offline, gets as ['disconnected_at'] its own reading of the clock
    and keeps its other fields (the lost ['socket_id'] stays recorded); the
    readings are the first, second, ... of the call, in registry order; every
    other peer is unchanged.  The events emitted are one 'peer_disconnected'
    per marked peer, in registry order, and nothing else.  When no peer has
    that socket the state is unchanged. *)
Theorem disconnect_outcome (sid : string) (clock : nat -> Z) (st : State) :
  let marked := filter (fun e => socket_is sid (snd e)) (connected_peers st) in
  let st' := fst (disconnect sid clock st) in
  snd (disconnect sid clock st) = sio_none
  /\ dict_keys (connected_peers st') = dict_keys (connected_peers st)
  /\ (forall k p,
         dict_get k (connected_peers st) = Some p ->
         (Peer.socket_id p = Some sid ->
          exists i,
            (i < List.length marked)%nat
            /\ dict_get k (connected_peers st')
               = Some (Peer.mk (Peer.user_id p) (Peer.ip p)
                         (Peer.connected_at p) offline (Peer.last_seen p)
                         (Some sid) (Some (clock i))))
         /\ (Peer.socket_id p <> Some sid ->
             dict_get k (connected_peers st') = Some p))
  /\ map (fun e => Peer.disconnected_at (snd e))
         (filter (fun e => socket_is sid (snd e)) (connected_peers st'))
     = map (fun i => Some (clock i)) (seq 0 (List.length marked))
  /\ emitted st'
     = (emitted st ++ map (fun e => emit_peer_disconnected (fst e)) marked)%list
  /\ (marked = [] -> disconnect sid clock st = (st, sio_none)).
Proof.
  intros marked st'. subst st'. unfold disconnect. cbn [fst snd].
  unfold sio_emit, with_connected_peers. cbn [connected_peers emitted].
  split; [reflexivity|]. split; [apply mark_offline_keys|]. split; [|split].
  - intros k p Hget.
    destruct (mark_offline_get sid clock k p (connected_peers st) 0 Hget)
      as [Hm Hk].
    split.
    + intros Hs. destruct (Hm (proj2 (socket_is_true sid p) Hs)) as [j [Hj Hg]].
      exists j. split; [fold marked in Hj; lia|].
      rewrite Hg. unfold Peer.set_disconnected_at, Peer.set_status. simpl.
      now rewrite Hs.
    + intros Hs. apply Hk. destruct (socket_is sid p) eqn:E; auto.
      apply socket_is_true in E. contradiction.
  - apply mark_offline_stamps.
  - split.
    + now rewrite flat_map_filter.
    + intros Hnone. rewrite flat_map_filter. fold marked. rewrite Hnone.
      rewrite mark_offline_none by exact Hnone. simpl. rewrite app_nil_r.
      now destruct st.
Qed.

Lemma disconnect_outcome_witness :
  connected_peers
    (fst (disconnect "s1" (fun i => 9 + Z.of_nat i) st_shared_socket))
  = [("p1", Peer.mk "alice" "10.0.0.1" 0 offline 0 (Some "s1") (Some 9));
     ("p2", Peer.mk "bob" "10.0.0.2" 0 online 0 (Some "s2") None);
     ("p3", Peer.mk "alice" "10.0.0.1" 0 offline 0 (Some "s1") (Some 10))]
  /\ emitted (fst (disconnect "s1" (fun i => 9 + Z.of_nat i) st_shared_socket))
     = [emit_peer_disconnected "p1"; emit_peer_disconnected "p3"]
  /\ disconnect "zz" (fun i => 9 + Z.of_nat i) st_shared_socket
     = (st_shared_socket, sio_none).
Proof.
  split; [reflexivity|].
  destruct (disconnect_outcome "s1" (fun i => 9 + Z.of_nat i) st_shared_socket)
    as [_ [_ [_ [_ [Hev _]]]]].
  split; [exact Hev|].
  apply (disconnect_outcome "zz" (fun i => 9 + Z.of_nat i) st_shared_socket).
  reflexivity.
Defined.

(** ** Listing peers *)

(** X5.  [get_peers] changes nothing and returns exactly the entries of
    the peer registry whose status is ['online'] and, when a non-empty
    [user_id] filter is given, whose user is that one; an empty filter string
    filters nothing.  Offline peers are never listed. *)
Theorem get_peers_lists_online (user_id : option string) (st : State) :
  fst (get_peers user_id st) = st
  /\ exists peers,
      snd (get_peers user_id st) = resp_peers peers
      /\ forall k p,
          In (k, p) peers
          <-> In (k, p) (connected_peers st)
              /\ Peer.status p = online
              /\ (user_id = None \/ user_id = Some ""
                  \/ user_id = Some (Peer.user_id p)).
Proof.
  split; [reflexivity|]. eexists. split; [reflexivity|].
  intros k p. rewrite filter_In. simpl. rewrite andb_true_iff.
  unfold Peer.is_online.
  split; intros [Hin H]; split; auto.
  - destruct H as [Ho Hw]. split; [destruct (Peer.status p); congruence|].
    destruct user_id as [u|]; auto.
    apply orb_true_iff in Hw as [Hw|Hw]; apply String.eqb_eq in Hw; subst; auto.
  - destruct H as [Ho Hw]. rewrite Ho. split; auto.
    destruct Hw as [-> | [-> | ->]]; auto.
    now rewrite String.eqb_refl, orb_true_r.
Qed.

(** ** Connecting *)

(** X6.  [connect_peer] without a [user_id] answers 400 and changes
    nothing.  With a [user_id] it registers under the generated id an online
    peer that has no socket: the peer is listed by [get_peers] at once, but a
    signal addressed to it is not delivered and falls back to a relay
    session. *)
Theorem connect_peer_outcome
  (user_id : option string) (remote_addr uuid : string) (now now' : Z)
  (st : State) :
  (user_id = None ->
   connect_peer user_id remote_addr uuid now now' st
   = (st, http_error 400 "Missing required parameters"))
  /\ (forall u,
         user_id = Some u ->
         let st1 := fst (connect_peer user_id remote_addr uuid now now' st) in
         snd (connect_peer user_id remote_addr uuid now now' st)
         = resp_connected uuid
         /\ dict_get uuid (connected_peers st1)
            = Some (Peer.mk u remote_addr now online now' None None)
         /\ (exists peers,
                snd (get_peers None st1) = resp_peers peers
                /\ In (uuid, Peer.mk u remote_addr now online now' None None)
                      peers)
         /\ forall sender signal uuid' later,
             snd (peer_signal (Some uuid) sender signal uuid' later st1)
             = sio_relay "Target peer unavailable, using relay").
Proof.
  split.
  - now intros ->.
  - intros u ->. simpl. rewrite dict_get_set_eq. repeat split; auto.
    + eexists. split; [reflexivity|]. apply filter_In. split; auto.
      apply dict_set_In.
    + intros sender signal uuid' later.
      unfold peer_signal, initiate_relay, socket_of. simpl.
      rewrite dict_get_set_eq. reflexivity.
Qed.

Lemma connect_peer_outcome_witness :
  connect_peer None "10.0.0.9" "p2" 5 6 st_online_peer
  = (st_online_peer, http_error 400 "Missing required parameters")
  /\ dict_get "p2"
       (connected_peers
          (fst (connect_peer (Some "bob") "10.0.0.9" "p2" 5 6 st_online_peer)))
     = Some (Peer.mk "bob" "10.0.0.9" 5 online 6 None None).
Proof.
  split.
  - apply (proj1 (connect_peer_outcome None "10.0.0.9" "p2" 5 6 st_online_peer)).
    reflexivity.
  - apply (proj2 (connect_peer_outcome (Some "bob") "10.0.0.9" "p2" 5 6
                    st_online_peer) "bob").
    reflexivity.
Defined.

(** ** Transfer requests *)

Lemma notify_first_at_most_one (user : string) (ev : string -> Emit)
  (peers : dict Peer.t) :
  (List.length (notify_first user ev peers) <= 1)%nat
  /\ (first_online user peers = None -> notify_first user ev peers = []).
Proof.
  unfold notify_first. destruct (first_online user peers) as [[k p]|].
  - destruct (Peer.socket_id p); simpl; split; auto; discriminate.
  - simpl. split; auto.
Qed.

(** X7.  [request_file_transfer] with a missing sender, receiver or
    filename answers 400 and changes nothing.  Otherwise it stores under the
    generated id a ['pending'] request with the posted fields and creates no
    active transfer; the [receiver_online] flag it reports is true exactly
    when some peer of the receiver is ['online']; it emits at most one
    'transfer_request' event, and none when the flag is false. *)
Theorem request_file_transfer_outcome
  (sender_id receiver_id filename : option string) (uuid : string) (now : Z)
  (st : State) :
  (sender_id = None \/ receiver_id = None \/ filename = None ->
   request_file_transfer sender_id receiver_id filename uuid now st
   = (st, http_error 400 "Missing required parameters"))
  /\ (forall s r f,
         sender_id = Some s -> receiver_id = Some r -> filename = Some f ->
         dict_get uuid
           (transfer_requests
              (fst (request_file_transfer sender_id receiver_id filename uuid
                      now st)))
         = Some (TransferRequest.mk s r f pending now)
         /\ active_transfers
              (fst (request_file_transfer sender_id receiver_id filename uuid
                      now st))
            = active_transfers st
         /\ exists receiver_online evs,
             snd (request_file_transfer sender_id receiver_id filename uuid
                    now st)
             = resp_pending uuid receiver_online
             /\ (receiver_online = true
                 <-> exists k p, In (k, p) (connected_peers st)
                                 /\ Peer.user_id p = r
                                 /\ Peer.status p = online)
             /\ emitted
                  (fst (request_file_transfer sender_id receiver_id filename
                          uuid now st))
                = (emitted st ++ evs)%list
             /\ (List.length evs <= 1)%nat
             /\ (receiver_online = false -> evs = [])).
Proof.
  split.
  - destruct sender_id, receiver_id, filename; intros H; try reflexivity.
    destruct H as [H|[H|H]]; discriminate.
  - intros s r f -> -> ->. simpl. rewrite dict_get_set_eq.
    split; [reflexivity|]. split; [reflexivity|].
    eexists. eexists. split; [reflexivity|].
    destruct (notify_first_at_most_one r
                (fun room => emit_transfer_request room uuid s f)
                (connected_peers st)) as [Hlen Hnone].
    rewrite <- first_online_found.
    split; [|split; [reflexivity|split; [exact Hlen|]]].
    + destruct (first_online r (connected_peers st)) as [e|]; split; auto.
      * intros _. now exists e.
      * discriminate.
      * intros [e He]. discriminate.
    + destruct (first_online r (connected_peers st)) as [e|]; [discriminate|].
      intros _. now apply Hnone.
Qed.

Lemma request_file_transfer_outcome_witness :
  request_file_transfer (Some "alice") None (Some "f.txt") "r2" 5 st_many_peers
  = (st_many_peers, http_error 400 "Missing required parameters")
  /\ dict_get "r2"
       (transfer_requests
          (fst (request_file_transfer (Some "bob") (Some "alice") (Some "g.txt")
                  "r2" 5 st_many_peers)))
     = Some (TransferRequest.mk "bob" "alice" "g.txt" pending 5).
Proof.
  split.
  - apply (proj1 (request_file_transfer_outcome (Some "alice") None
                    (Some "f.txt") "r2" 5 st_many_peers)).
    right. left. reflexivity.
  - apply (proj2 (request_file_transfer_outcome (Some "bob") (Some "alice")
                    (Some "g.txt") "r2" 5 st_many_peers)
             "bob" "alice" "g.txt"); reflexivity.
Defined.

(** The first online device of alice has no socket, so the request is not
    announced although her second device has one. *)
Example request_not_announced_to_second_device :
  request_file_transfer (Some "bob") (Some "alice") (Some "g.txt") "r2" 5
    st_many_peers
  = (with_transfer_requests
       (dict_set "r2" (TransferRequest.mk "bob" "alice" "g.txt" pending 5)
          (transfer_requests st_many_peers)) st_many_peers,
     resp_pending "r2" true).
Proof. reflexivity. Qed.

(** X8.  A request that is then approved gives a transfer that
    [get_transfer_status] reports as ['ready'] with progress 0, in p2p mode,
    carrying the sender, receiver and filename that were posted with the
    request; the request is ['approved']. *)
Theorem request_approve_status
  (s r f request_id transfer_id : string) (t1 t2 : Z) (st : State) :
  let st2 :=
    fst (approve_transfer request_id transfer_id t2
           (fst (request_file_transfer (Some s) (Some r) (Some f) request_id
                   t1 st))) in
  get_transfer_status transfer_id st2
  = (st2, resp_transfer
            (ActiveTransfer.mk request_id "ready" 0 t2 s r f p2p None None))
  /\ dict_get request_id (transfer_requests st2)
     = Some (TransferRequest.mk s r f approved t1).
Proof.
  simpl. unfold approve_transfer. simpl. rewrite dict_get_set_eq. simpl.
  unfold get_transfer_status. simpl. rewrite !dict_get_set_eq. split; reflexivity.
Qed.

(** ** Fallback upload and download *)

(** What [cancel_transfer] does to the registry and to the upload folder. *)
Lemma cancel_transfer_known (transfer_id : string) (st : State)
  (a : ActiveTransfer.t) :
  dict_get transfer_id (active_transfers st) = Some a ->
  active_transfers (fst (cancel_transfer transfer_id st))
  = dict_set transfer_id (ActiveTransfer.set_status "cancelled" a)
      (active_transfers st)
  /\ files (fst (cancel_transfer transfer_id st))
     = match ActiveTransfer.transfer_mode a, ActiveTransfer.file_path a with
       | server_relay, Some f =>
           if os_path_exists f (files st) then os_remove f (files st)
           else files st
       | _, _ => files st
       end.
Proof.
  intros Hget. unfold cancel_transfer. rewrite Hget.
  destruct a as [rid s0 p0 c0 snd0 rcv0 fn0 [|] [f|] ca0]; simpl; auto.
  destruct (os_path_exists f (files st)); simpl; auto.
Qed.

Section Upload.
Variable secure_filename : string -> string.

(** The state a successful fallback upload leaves. *)
Lemma upload_file_saved
  (transfer_id file : string) (now : Z) (st : State) (a : ActiveTransfer.t) :
  dict_get transfer_id (active_transfers st) = Some a ->
  file <> "" ->
  let path := os_path_join (os_path_join UPLOAD_FOLDER transfer_id)
                (secure_filename file) in
  let st1 := fst (upload_file secure_filename transfer_id (Some file) None
                    now st) in
  snd (upload_file secure_filename transfer_id (Some file) None now st)
  = resp_completed transfer_id (secure_filename file)
  /\ dict_get transfer_id (active_transfers st1)
     = Some (ActiveTransfer.mk (ActiveTransfer.request_id a) "completed" 100
               (ActiveTransfer.created_at a) (ActiveTransfer.sender_id a)
               (ActiveTransfer.receiver_id a) (ActiveTransfer.filename a)
               server_relay (Some path) (Some now))
  /\ os_path_exists path (files st1) = true.
Proof.
  intros Hget Hne path st1. apply String.eqb_neq in Hne.
  subst st1. unfold upload_file. rewrite Hget, Hne. cbv zeta. fold path.
  cbn [fst snd]. split; [reflexivity|].
  unfold sio_emit, with_active_transfers, with_files.
  cbn [active_transfers files]. rewrite !dict_get_set_eq.
  rewrite os_path_exists_save. split; reflexivity.
Qed.

(** X9.  A fallback upload that is written to disk answers 'completed'
    with the secured filename and leaves the transfer ['completed'] with
    progress 100 in server-relay mode, its ['file_path'] being
    [transfers/<transfer_id>/<secured filename>]; the transfer's own
    ['filename'] field is not changed.  [download_file] for that transfer
    then serves exactly that path and changes nothing. *)
Theorem upload_then_download
  (transfer_id file : string) (now : Z) (st : State) (a : ActiveTransfer.t) :
  dict_get transfer_id (active_transfers st) = Some a ->
  file <> "" ->
  let path := os_path_join (os_path_join UPLOAD_FOLDER transfer_id)
                (secure_filename file) in
  let st1 := fst (upload_file secure_filename transfer_id (Some file) None
                    now st) in
  snd (upload_file secure_filename transfer_id (Some file) None now st)
  = resp_completed transfer_id (secure_filename file)
  /\ dict_get transfer_id (active_transfers st1)
     = Some (ActiveTransfer.mk (ActiveTransfer.request_id a) "completed" 100
               (ActiveTransfer.created_at a) (ActiveTransfer.sender_id a)
               (ActiveTransfer.receiver_id a) (ActiveTransfer.filename a)
               server_relay (Some path) (Some now))
  /\ os_path_exists path (files st1) = true
  /\ download_file transfer_id st1 = (st1, resp_file path).
Proof.
  intros Hget Hne path st1.
  destruct (upload_file_saved transfer_id file now st a Hget Hne)
    as [Hresp [Hget1 Hex]].
  fold path in Hget1, Hex. fold st1 in Hget1, Hex.
  repeat split; auto.
  unfold download_file. rewrite Hget1.
  cbn [ActiveTransfer.status ActiveTransfer.file_path]. rewrite Hex.
  reflexivity.
Qed.


(** X11.  Cancelling a transfer whose payload was staged by a fallback
    upload removes the staged file, and [download_file] then answers 400
    'File not ready for download'. *)
Theorem upload_then_cancel
  (transfer_id file : string) (now : Z) (st : State) (a : ActiveTransfer.t) :
  dict_get transfer_id (active_transfers st) = Some a ->
  file <> "" ->
  let path := os_path_join (os_path_join UPLOAD_FOLDER transfer_id)
                (secure_filename file) in
  let st2 :=
    fst (cancel_transfer transfer_id
           (fst (upload_file secure_filename transfer_id (Some file) None
                   now st))) in
  os_path_exists path (files st2) = false
  /\ download_file transfer_id st2
     = (st2, http_error 400 "File not ready for download").
Proof.
  intros Hget Hne path st2.
  destruct (upload_file_saved transfer_id file now st a Hget Hne)
    as [_ [Hget1 Hex]].
  fold path in Hget1, Hex.
  destruct (cancel_transfer_known transfer_id _ _ Hget1) as [Hact Hfiles].
  fold st2 in Hact, Hfiles. cbn [ActiveTransfer.transfer_mode
                                   ActiveTransfer.file_path] in Hfiles.
  rewrite Hex in Hfiles. split.
  - rewrite Hfiles. apply os_path_exists_remove.
  - unfold download_file. rewrite Hact, dict_get_set_eq. reflexivity.
Qed.
End Upload.

Lemma upload_then_download_witness :
  download_file "t1"
    (fst (upload_file (fun f => f) "t1" (Some "f.txt") None 8 st_many_peers))
  = (fst (upload_file (fun f => f) "t1" (Some "f.txt") None 8 st_many_peers),
     resp_file "transfers/t1/f.txt").
Proof.
  apply (upload_then_download (fun f => f) "t1" "f.txt" 8 st_many_peers
           (ActiveTransfer.mk "r1" "ready" 0 2 "alice" "bob" "f.txt"
              p2p None None)).
  - reflexivity.
  - discriminate.
Defined.


Lemma upload_then_cancel_witness :
  os_path_exists "transfers/t1/f.txt"
    (files
       (fst (cancel_transfer "t1"
               (fst (upload_file (fun f => f) "t1" (Some "f.txt") None 8
                       st_many_peers))))) = false.
Proof.
  apply (upload_then_cancel (fun f => f) "t1" "f.txt" 8 st_many_peers
           (ActiveTransfer.mk "r1" "ready" 0 2 "alice" "bob" "f.txt"
              p2p None None)).
  - reflexivity.
  - discriminate.
Defined.

(** X12.  [download_file] never changes the state.  It serves a file
    exactly when the transfer is known, its status is ['completed'], it has a
    ['file_path'] and that file exists.  A transfer completed through
    [update_transfer_status] without ever being uploaded has no
    ['file_path'], and downloading it answers 500. *)
Theorem download_file_outcome (transfer_id : string) (st : State) :
  fst (download_file transfer_id st) = st
  /\ (forall path,
         snd (download_file transfer_id st) = resp_file path
         <-> exists a,
             dict_get transfer_id (active_transfers st) = Some a
             /\ ActiveTransfer.status a = "completed"
             /\ ActiveTransfer.file_path a = Some path
             /\ os_path_exists path (files st) = true)
  /\ (forall a p now,
         dict_get transfer_id (active_transfers st) = Some a ->
         ActiveTransfer.file_path a = None ->
         snd (download_file transfer_id
                (fst (update_transfer_status transfer_id (Some "completed")
                        (Some p) now st)))
         = http_error 500 "'file_path'").
Proof.
  split; [|split].
  - unfold download_file. break_branches; reflexivity.
  - intros path. unfold download_file.
    destruct (dict_get transfer_id (active_transfers st)) as [a|] eqn:Hget.
    + destruct (String.eqb (ActiveTransfer.status a) "completed") eqn:Es;
        simpl.
      * apply String.eqb_eq in Es.
        destruct (ActiveTransfer.file_path a) as [f|] eqn:Ef.
        -- destruct (os_path_exists f (files st)) eqn:Ex; simpl; split.
           ++ intros [= <-]. exists a. auto.
           ++ intros [a' [[= <-] [_ [Hf _]]]]. congruence.
           ++ discriminate.
           ++ intros [a' [[= <-] [_ [Hf He]]]]. congruence.
        -- simpl. split; [discriminate|].
           intros [a' [[= <-] [_ [Hf _]]]]. congruence.
      * split; [discriminate|].
        intros [a' [[= <-] [Hs _]]]. rewrite Hs in Es. discriminate.
    + simpl. split; [discriminate|]. intros [a' [Ha _]]. discriminate.
  - intros a p now Hget Hf. unfold update_transfer_status. rewrite Hget.
    simpl. unfold download_file. simpl. rewrite dict_get_set_eq. simpl.
    now rewrite Hf.
Qed.

Lemma download_file_outcome_witness :
  snd (download_file "t1"
         (fst (update_transfer_status "t1" (Some "completed") (Some 100) 9
                 st_many_peers)))
  = http_error 500 "'file_path'".
Proof.
  apply (proj2 (proj2 (download_file_outcome "t1" st_many_peers))
           (ActiveTransfer.mk "r1" "ready" 0 2 "alice" "bob" "f.txt"
              p2p None None)); reflexivity.
Defined.

(** ** Status updates *)

(** X13.  [update_transfer_status] checks its body first: without a
    status or a progress it answers 400, also for an unknown transfer; with
    both and an unknown transfer it answers 404; in both cases nothing
    changes.  For a known transfer, whatever its current status, it stores
    the posted status and progress, stamps ['completed_at'] only when the
    posted status is ['completed'], and touches no other transfer, no other
    registry and no file; unless the posted status is ['completed'] it emits
    nothing. *)
Theorem update_transfer_status_outcome
  (transfer_id : string) (status : option string) (progress : option Z)
  (now : Z) (st : State) :
  (status = None \/ progress = None ->
   update_transfer_status transfer_id status progress now st
   = (st, http_error 400 "Missing required parameters"))
  /\ (forall s p,
         status = Some s -> progress = Some p ->
         dict_get transfer_id (active_transfers st) = None ->
         update_transfer_status transfer_id status progress now st
         = (st, http_error 404 "Transfer not found"))
  /\ (forall s p a,
         status = Some s -> progress = Some p ->
         dict_get transfer_id (active_transfers st) = Some a ->
         let st' :=
           fst (update_transfer_status transfer_id status progress now st) in
         snd (update_transfer_status transfer_id status progress now st)
         = resp_updated
         /\ dict_get transfer_id (active_transfers st')
            = Some (ActiveTransfer.mk
                      (ActiveTransfer.request_id a) s p
                      (ActiveTransfer.created_at a)
                      (ActiveTransfer.sender_id a)
                      (ActiveTransfer.receiver_id a)
                      (ActiveTransfer.filename a)
                      (ActiveTransfer.transfer_mode a)
                      (ActiveTransfer.file_path a)
                      (if String.eqb s "completed" then Some now
                       else ActiveTransfer.completed_at a))
         /\ (forall other,
                other <> transfer_id ->
                dict_get other (active_transfers st')
                = dict_get other (active_transfers st))
         /\ connected_peers st' = connected_peers st
         /\ transfer_requests st' = transfer_requests st
         /\ relay_sessions st' = relay_sessions st
         /\ files st' = files st
         /\ (s <> "completed" -> emitted st' = emitted st)).
Proof.
  split; [|split].
  - intros [-> | ->]; [reflexivity|]. now destruct status.
  - intros s p -> -> Hget. unfold update_transfer_status. now rewrite Hget.
  - intros s p a -> -> Hget. unfold update_transfer_status. rewrite Hget.
    destruct (String.eqb s "completed") eqn:Es; simpl;
      rewrite dict_get_set_eq; repeat split; auto;
      try (intros other Hne; apply dict_get_set_ne; congruence).
    intros Hne. apply String.eqb_eq in Es. contradiction.
Qed.

Lemma update_transfer_status_outcome_witness :
  update_transfer_status "t9" (Some "transferring") None 9 st_many_peers
  = (st_many_peers, http_error 400 "Missing required parameters")
  /\ update_transfer_status "t9" (Some "transferring") (Some 10) 9 st_many_peers
     = (st_many_peers, http_error 404 "Transfer not found")
  /\ dict_get "t1"
       (active_transfers
          (fst (update_transfer_status "t1" (Some "transferring") (Some 10) 9
                  st_many_peers)))
     = Some (ActiveTransfer.mk "r1" "transferring" 10 2 "alice" "bob" "f.txt"
               p2p None None).
Proof.
  split; [|split].
  - apply (proj1 (update_transfer_status_outcome "t9" (Some "transferring")
                    None 9 st_many_peers)).
    right. reflexivity.
  - apply (proj1 (proj2 (update_transfer_status_outcome "t9"
                           (Some "transferring") (Some 10) 9 st_many_peers))
             "transferring" 10); reflexivity.
  - apply (proj2 (proj2 (update_transfer_status_outcome "t1"
                           (Some "transferring") (Some 10) 9 st_many_peers))
             "transferring" 10
             (ActiveTransfer.mk "r1" "ready" 0 2 "alice" "bob" "f.txt"
                p2p None None)); reflexivity.
Defined.

(** ** Who is notified *)

(** The rooms the loop without [break] emits to: the sockets of the
    entries that pass its three tests, one per entry, in registry order. *)
Lemma notify_both_rooms (sender receiver : string) (ev : string -> Emit)
  (peers : dict Peer.t) :
  exists rooms,
    notify_both sender receiver ev peers = map ev rooms
    /\ map Some rooms
       = map (fun e => Peer.socket_id (snd e))
           (filter
              (fun e =>
                 ((String.eqb (Peer.user_id (snd e)) sender
                   || String.eqb (Peer.user_id (snd e)) receiver)
                  && Peer.is_online (snd e)
                  && match Peer.socket_id (snd e) with
                     | Some _ => true
                     | None => false
                     end)%bool)
              peers).
Proof.
  unfold notify_both. induction peers as [|[k p] r [rooms [IH1 IH2]]]; simpl.
  - now exists [].
  - destruct ((String.eqb (Peer.user_id p) sender
               || String.eqb (Peer.user_id p) receiver)
              && Peer.is_online p)%bool; simpl.
    + destruct (Peer.socket_id p) as [room|] eqn:Es; simpl.
      * exists (room :: rooms). simpl. rewrite IH1, IH2, Es. auto.
      * exists rooms. auto.
    + exists rooms. auto.
Qed.

(** X14.  When a transfer is cancelled, or reported ['completed'] through
    [update_transfer_status], the events emitted are exactly one
    'transfer_cancelled' (respectively 'transfer_completed', always tagged
    p2p) per registry entry that is ['online'], has a socket and belongs to
    the transfer's sender or receiver, sent to that entry's socket, in
    registry order.  Offline peers and peers of other users are never
    notified. *)
Theorem transfer_notifications
  (transfer_id : string) (st : State) (a : ActiveTransfer.t) :
  dict_get transfer_id (active_transfers st) = Some a ->
  exists rooms,
    map Some rooms
    = map (fun e => Peer.socket_id (snd e))
        (filter
           (fun e =>
              ((String.eqb (Peer.user_id (snd e)) (ActiveTransfer.sender_id a)
                || String.eqb (Peer.user_id (snd e))
                     (ActiveTransfer.receiver_id a))
               && Peer.is_online (snd e)
               && match Peer.socket_id (snd e) with
                  | Some _ => true
                  | None => false
                  end)%bool)
           (connected_peers st))
    /\ emitted (fst (cancel_transfer transfer_id st))
       = (emitted st
          ++ map (fun room => emit_transfer_cancelled room transfer_id) rooms)%list
    /\ forall p now,
        emitted (fst (update_transfer_status transfer_id (Some "completed")
                        (Some p) now st))
        = (emitted st
           ++ map (fun room => emit_transfer_completed room transfer_id None p2p)
                rooms)%list.
Proof.
  intros Hget.
  destruct (notify_both_rooms (ActiveTransfer.sender_id a)
              (ActiveTransfer.receiver_id a)
              (fun room => emit_transfer_cancelled room transfer_id)
              (connected_peers st)) as [rooms [Hc Hrooms]].
  destruct (notify_both_rooms (ActiveTransfer.sender_id a)
              (ActiveTransfer.receiver_id a)
              (fun room => emit_transfer_completed room transfer_id None p2p)
              (connected_peers st)) as [rooms' [Hu Hrooms']].
  assert (rooms' = rooms) as ->.
  { rewrite <- Hrooms in Hrooms'. clear - Hrooms'.
    revert rooms Hrooms'. induction rooms' as [|x r IH]; intros [|y r'] H;
      simpl in H; try discriminate; auto.
    injection H as -> H. f_equal. now apply IH. }
  exists rooms. split; [exact Hrooms|]. split.
  - rewrite <- Hc. unfold cancel_transfer. rewrite Hget.
    destruct a as [rid s0 p0 c0 snd0 rcv0 fn0 [|] [f|] ca0]; simpl; auto.
    destruct (os_path_exists f (files st)); reflexivity.
  - intros p now. rewrite <- Hu.
    unfold update_transfer_status. rewrite Hget. reflexivity.
Qed.

Lemma transfer_notifications_witness :
  exists rooms,
    rooms = ["sa2"; "sb1"]
    /\ emitted (fst (cancel_transfer "t1" st_many_peers))
       = map (fun room => emit_transfer_cancelled room "t1") rooms.
Proof.
  destruct (transfer_notifications "t1" st_many_peers
              (ActiveTransfer.mk "r1" "ready" 0 2 "alice" "bob" "f.txt"
                 p2p None None) eq_refl) as [rooms [Hrooms [Hc _]]].
  exists rooms. split; [|exact Hc].
  simpl in Hrooms.
  destruct rooms as [|x [|y [|z r]]]; try discriminate.
  now injection Hrooms as -> ->.
Defined.

(** ** Repeated sweeps *)

(** X15.  Two passes of the cleanup task, with no call in between, leave
    what the later pass alone would leave; in particular a second pass at the
    same instant changes nothing, and a sweep never brings a peer back
    online. *)
Theorem cleanup_later_sweep (now later : Z) (st : State) :
  now <= later ->
  cleanup_inactive_peers later (cleanup_inactive_peers now st)
  = cleanup_inactive_peers later st.
Proof.
  intros Hle. unfold cleanup_inactive_peers, with_connected_peers. simpl.
  f_equal. rewrite map_map. apply map_ext. intros [k p]. simpl.
  unfold Peer.is_online, timed_out.
  destruct (Peer.status p) eqn:Es; simpl.
  - destruct (Z.ltb_spec 60000000 (now - Peer.last_seen p)); simpl.
    + destruct (Z.ltb_spec 60000000 (later - Peer.last_seen p));
        [reflexivity|lia].
    + now rewrite Es.
  - now rewrite Es.
Qed.

Lemma cleanup_later_sweep_witness :
  cleanup_inactive_peers 70000000 (cleanup_inactive_peers 60000001 st_online_peer)
  = cleanup_inactive_peers 70000000 st_online_peer.
Proof. apply (cleanup_later_sweep 60000001 70000000 st_online_peer). lia. Defined.

(** ** The upload folder *)

Section Folder.
Variable secure_filename : string -> string.

(** X16.  Only [upload_file] and [cancel_transfer] touch the upload
    folder: every other call leaves the staged files as they are.  In
    particular a transfer reported completed or a peer that disconnects never
    removes a staged payload. *)
Theorem files_touched_only_by_upload_and_cancel (c : Call) (st : State) :
  (forall transfer_id file save_error now,
      c <> call_upload_file transfer_id file save_error now) ->
  (forall transfer_id, c <> call_cancel_transfer transfer_id) ->
  files (fst (step secure_filename c st)) = files st.
Proof.
  intros Hup Hcancel.
  destruct c; simpl;
    try (exfalso; eapply Hup; reflexivity);
    try (exfalso; eapply Hcancel; reflexivity);
    try reflexivity;
    unfold register_socket, peer_signal, initiate_relay, relay_chunk,
      connect_peer, heartbeat, request_file_transfer, approve_transfer,
      download_file, get_transfer_status, update_transfer_status,
      disconnect_peer;
    cbv zeta; break_branches; reflexivity.
Qed.

(** The sizes of the two registries [get_status] counts. *)
Lemma step_lengths (c : Call) (st : State) :
  (List.length (connected_peers st)
   <= List.length (connected_peers (fst (step secure_filename c st))))%nat
  /\ (List.length (active_transfers st)
      <= List.length (active_transfers (fst (step secure_filename c st))))%nat.
Proof.
  destruct c; simpl;
    unfold disconnect, register_socket, peer_signal, initiate_relay,
      relay_chunk, connect_peer, heartbeat, request_file_transfer,
      approve_transfer, download_file, get_transfer_status,
      update_transfer_status, cancel_transfer, disconnect_peer,
      cleanup_inactive_peers, upload_file;
    cbv zeta; break_branches; simpl;
    rewrite ?length_map, ?mark_offline_length;
    split; auto using dict_set_length_le;
    eapply Nat.le_trans; apply dict_set_length_le.
Qed.

Lemma run_lengths (cs : list Call) :
  forall st,
    (List.length (connected_peers st)
     <= List.length (connected_peers (run secure_filename cs st)))%nat
    /\ (List.length (active_transfers st)
        <= List.length (active_transfers (run secure_filename cs st)))%nat.
Proof.
  induction cs as [|c cs IH]; intros st; [split; auto|].
  change (run secure_filename (c :: cs) st)
    with (run secure_filename cs (fst (step secure_filename c st))).
  destruct (step_lengths c st) as [H1 H2].
  destruct (IH (fst (step secure_filename c st))) as [H3 H4].
  split; lia.
Qed.

(** X17.  [get_status] changes nothing and reports as
    ['connected_peers'] and ['active_transfers'] the sizes of the two
    registries.  The peer count includes offline peers: it is at least the
    number of peers [get_peers] lists.  After any sequence of calls both
    counts are at least what they were. *)
Theorem status_counts_are_registry_sizes (cs : list Call) (st : State) :
  get_status st
  = (st, resp_status (List.length (connected_peers st))
           (List.length (active_transfers st)))
  /\ (forall n m n' m',
         snd (get_status st) = resp_status n m ->
         snd (get_status (run secure_filename cs st)) = resp_status n' m' ->
         n = List.length (connected_peers st)
         /\ m = List.length (active_transfers st)
         /\ n' = List.length (connected_peers (run secure_filename cs st))
         /\ m' = List.length (active_transfers (run secure_filename cs st))
         /\ (n <= n')%nat /\ (m <= m')%nat)
  /\ (forall user_id peers,
         snd (get_peers user_id st) = resp_peers peers ->
         (List.length peers <= List.length (connected_peers st))%nat).
Proof.
  split; [reflexivity|]. split.
  - unfold get_status. simpl. intros n m n' m' [= <- <-] [= <- <-].
    destruct (run_lengths cs st) as [H1 H2]. auto 10.
  - intros user_id peers [= <-]. apply filter_length_le.
Qed.
End Folder.

Lemma files_touched_only_by_upload_and_cancel_witness :
  files (fst (step (fun f => f)
                (call_update_transfer_status "t1" (Some "completed") (Some 100) 9)
                st_pending_request))
  = files st_pending_request.
Proof.
  apply (files_touched_only_by_upload_and_cancel (fun f => f)
           (call_update_transfer_status "t1" (Some "completed") (Some 100) 9)
           st_pending_request); discriminate.
Defined.

Lemma status_counts_are_registry_sizes_witness :
  snd (get_status st_offline_peer) = resp_status 1 0
  /\ snd (get_peers None st_offline_peer) = resp_peers []
  /\ snd (get_status (run (fun f => f) sample_calls st_pending_request))
     = resp_status 1 2
  /\ (1 <= 1 /\ 1 <= 2)%nat.
Proof.
  split; [reflexivity|]. split; [reflexivity|]. split; [reflexivity|].
  destruct (proj1 (proj2 (status_counts_are_registry_sizes (fun f => f)
                            sample_calls st_pending_request))
              1%nat 1%nat 1%nat 2%nat eq_refl eq_refl)
    as [_ [_ [_ [_ [Hn Hm]]]]].
  split; assumption.
Defined.

(** ** Sockets are never forgotten *)

Lemma socket_of_set_other (k k' : string) (v : Peer.t) (d : dict Peer.t) :
  k' <> k -> socket_of (Some k) (dict_set k' v d) = socket_of (Some k) d.
Proof. intros Hne. unfold socket_of. now rewrite dict_get_set_ne. Qed.

Lemma socket_of_set_same (k : string) (v : Peer.t) (d : dict Peer.t) :
  socket_of (Some k) (dict_set k v d) = Peer.socket_id v.
Proof. unfold socket_of. now rewrite dict_get_set_eq. Qed.

(** Writing back a known peer with its socket kept or replaced. *)
Lemma socket_kept_by_set (k k' : string) (f : Peer.t -> Peer.t)
  (d : dict Peer.t) (p : Peer.t) (sock : string) :
  dict_get k' d = Some p ->
  (forall q s, Peer.socket_id q = Some s -> exists s', Peer.socket_id (f q) = Some s') ->
  socket_of (Some k) d = Some sock ->
  exists sock', socket_of (Some k) (dict_set k' (f p) d) = Some sock'.
Proof.
  intros Hget Hf Hs. destruct (string_dec k' k) as [->|Hne].
  - rewrite socket_of_set_same. unfold socket_of in Hs. rewrite Hget in Hs.
    apply (Hf p sock Hs).
  - rewrite socket_of_set_other by exact Hne. now exists sock.
Qed.

Lemma socket_kept_by_loop (k : string) (c : Peer.t -> bool)
  (h : Peer.t -> Peer.t) (d : dict Peer.t) :
  (forall q, Peer.socket_id (h q) = Peer.socket_id q) ->
  socket_of (Some k)
    (map (fun e => if c (snd e) then (fst e, h (snd e)) else e) d)
  = socket_of (Some k) d.
Proof.
  intros Hh. unfold socket_of. rewrite dict_get_map_cond.
  destruct (dict_get k d) as [q|]; simpl; auto.
  destruct (c q); auto.
Qed.

Section Sockets.
Variable secure_filename : string -> string.

Lemma step_keeps_socket (c : Call) (st : State) (k sock : string) :
  socket_of (Some k) (connected_peers st) = Some sock ->
  (forall u remote_addr now now',
      c <> call_connect_peer (Some u) remote_addr k now now') ->
  exists sock',
    socket_of (Some k) (connected_peers (fst (step secure_filename c st)))
    = Some sock'.
Proof.
  intros Hs Hfresh.
  assert (Hsame : forall st', connected_peers st' = connected_peers st ->
                              exists sock',
                                socket_of (Some k) (connected_peers st')
                                = Some sock').
  { intros st' ->. now exists sock. }
  destruct c; cbn [step].
  - now exists sock.
  - unfold disconnect, sio_emit, with_connected_peers.
    cbn [fst connected_peers]. rewrite mark_offline_socket. now exists sock.
  - unfold register_socket. destruct peer_id as [k'|]; [|now exists sock].
    destruct (String.eqb k' ""); [now exists sock|].
    destruct (dict_get k' (connected_peers st)) as [p|] eqn:Hget;
      [|now exists sock].
    simpl.
    apply (socket_kept_by_set k k'
             (fun q => Peer.set_last_seen now (Peer.set_socket_id sid q))
             _ p sock Hget); auto.
    intros q s _. now exists sid.
  - apply Hsame. unfold peer_signal, initiate_relay. cbv zeta.
    break_branches; reflexivity.
  - apply Hsame. unfold relay_chunk. break_branches; reflexivity.
  - now exists sock.
  - unfold connect_peer. destruct user_id as [u|]; [|now exists sock].
    unfold with_connected_peers. cbn [fst connected_peers].
    rewrite socket_of_set_other; [now exists sock|].
    intros ->. now apply (Hfresh u remote_addr now now').
  - unfold heartbeat.
    destruct (dict_get peer_id (connected_peers st)) as [p|] eqn:Hget;
      [|now exists sock].
    simpl.
    apply (socket_kept_by_set k peer_id
             (fun q => Peer.set_status online (Peer.set_last_seen now q))
             _ p sock Hget); auto.
    intros q s Hq. now exists s.
  - now exists sock.
  - apply Hsame. unfold request_file_transfer. break_branches; reflexivity.
  - apply Hsame. unfold approve_transfer. break_branches; reflexivity.
  - apply Hsame. unfold upload_file. cbv zeta. break_branches; reflexivity.
  - apply Hsame. unfold download_file. break_branches; reflexivity.
  - apply Hsame. unfold get_transfer_status. break_branches; reflexivity.
  - apply Hsame. unfold update_transfer_status. break_branches; reflexivity.
  - apply Hsame. unfold cancel_transfer. cbv zeta. break_branches; reflexivity.
  - unfold disconnect_peer.
    destruct (dict_get peer_id (connected_peers st)) as [p|] eqn:Hget;
      [|now exists sock].
    simpl.
    apply (socket_kept_by_set k peer_id
             (fun q => Peer.set_disconnected_at now (Peer.set_status offline q))
             _ p sock Hget); auto.
    intros q s Hq. now exists s.
  - unfold cleanup_inactive_peers, with_connected_peers.
    cbn [fst connected_peers].
    rewrite (socket_kept_by_loop k
               (fun q => (Peer.is_online q && timed_out now q)%bool)
               (Peer.set_status offline));
      [now exists sock | reflexivity].
Qed.

(** X18.  Once a peer has a socket it has one after any sequence of calls
    (explicit disconnect, channel loss and cleanup included), as long as
    [uuid4] does not generate that peer's id again in [connect_peer]: no
    handler removes ['socket_id'].  The socket recorded may be a newer one. *)
Theorem socket_id_never_cleared (cs : list Call) (st : State) (k sock : string) :
  socket_of (Some k) (connected_peers st) = Some sock ->
  Forall (fun c => forall u remote_addr now now',
              c <> call_connect_peer (Some u) remote_addr k now now') cs ->
  exists sock',
    socket_of (Some k) (connected_peers (run secure_filename cs st)) = Some sock'.
Proof.
  revert st sock. induction cs as [|c cs IH]; intros st sock Hs Hall.
  - now exists sock.
  - inversion Hall as [|? ? Hc Hcs]; subst.
    destruct (step_keeps_socket c st k sock Hs Hc) as [sock1 Hs1].
    change (run secure_filename (c :: cs) st)
      with (run secure_filename cs (fst (step secure_filename c st))).
    apply (IH _ sock1 Hs1 Hcs).
Qed.
End Sockets.

Lemma socket_id_never_cleared_witness :
  exists sock',
    socket_of (Some "p1")
      (connected_peers
         (run (fun f => f)
            [call_disconnect_peer "p1" 5; call_disconnect "s1" (fun _ => 6);
             call_cleanup 100000000] st_online_peer))
    = Some sock'.
Proof.
  apply (socket_id_never_cleared (fun f => f)
           [call_disconnect_peer "p1" 5; call_disconnect "s1" (fun _ => 6);
            call_cleanup 100000000] st_online_peer "p1" "s1").
  - reflexivity.
  - repeat constructor; discriminate.
Defined.

(** ** After an explicit disconnect *)

Lemma dict_keys_set_known {V : Type} (k : string) (v v0 : V) (d : dict V) :
  dict_get k d = Some v0 -> dict_keys (dict_set k v d) = dict_keys d.
Proof.
  unfold dict_keys. induction d as [|[k' v'] r IH]; simpl; [discriminate|].
  destruct (String.eqb k k') eqn:E; simpl; auto.
  intros Hget. now rewrite IH.
Qed.

(** In a dictionary (keys are unique) an entry is what the lookup gives. *)
Lemma dict_get_of_In {V : Type} (k : string) (v : V) (d : dict V) :
  NoDup (dict_keys d) -> In (k, v) d -> dict_get k d = Some v.
Proof.
  unfold dict_keys. induction d as [|[k' v'] r IH]; simpl; [intros _ []|].
  intros Hnd [Hin|Hin]; inversion Hnd as [|? ? Hnin Hnd']; subst.
  - injection Hin as -> ->. now rewrite String.eqb_refl.
  - destruct (String.eqb k k') eqn:E; auto.
    apply String.eqb_eq in E. subst k'. exfalso. apply Hnin.
    change k with (fst (k, v)). now apply in_map.
Qed.

(** X19.  A peer that had a socket and called [disconnect_peer] is no
    longer listed by [get_peers], yet a signal addressed to it is still
    forwarded to its old socket and answered 'success': delivery looks at the
    socket only, listing at the status only. *)
Theorem disconnected_peer_still_receives
  (k sock : string) (p : Peer.t) (now later : Z)
  (sender signal : option string) (uuid : string) (st : State) :
  NoDup (dict_keys (connected_peers st)) ->
  dict_get k (connected_peers st) = Some p ->
  Peer.socket_id p = Some sock ->
  let st1 := fst (disconnect_peer k now st) in
  peer_signal (Some k) sender signal uuid later st1
  = (sio_emit [emit_peer_signal sock sender signal] st1, sio_success)
  /\ forall user_id peers q,
      snd (get_peers user_id st1) = resp_peers peers ->
      ~ In (k, q) peers.
Proof.
  intros Hnd Hget Hsock st1. subst st1. unfold disconnect_peer. rewrite Hget.
  cbn [fst]. split.
  - unfold peer_signal, socket_of, with_connected_peers.
    cbn [connected_peers]. rewrite dict_get_set_eq. simpl. now rewrite Hsock.
  - intros user_id peers q [= <-] Hq.
    unfold with_connected_peers in Hq. cbn [connected_peers] in Hq.
    apply filter_In in Hq as [Hin Hb]. apply andb_true_iff in Hb as [Ho _].
    apply dict_get_of_In in Hin.
    + rewrite dict_get_set_eq in Hin. injection Hin as <-.
      discriminate Ho.
    + now rewrite (dict_keys_set_known k _ p).
Qed.

Lemma disconnected_peer_still_receives_witness :
  peer_signal (Some "b1") (Some "a2") (Some "offer") "u1" 9
    (fst (disconnect_peer "b1" 8 st_many_peers))
  = (sio_emit [emit_peer_signal "sb1" (Some "a2") (Some "offer")]
       (fst (disconnect_peer "b1" 8 st_many_peers)), sio_success).
Proof.
  apply (disconnected_peer_still_receives "b1" "sb1"
           (Peer.mk "bob" "10.0.0.3" 0 online 0 (Some "sb1") None) 8 9
           (Some "a2") (Some "offer") "u1" st_many_peers).
  - repeat constructor; simpl; intuition discriminate.
  - reflexivity.
  - reflexivity.
Defined.

(** ** Relayed chunks, continued *)

(** X20.  When the receiver of a known session has a socket,
    [relay_chunk] always forwards the chunk to it with the session id, index
    and total (it reads neither the session's status nor the peer's) and
    touches no registry but the relay sessions.  A chunk that is not the last
    is answered 'success' and leaves the sessions unchanged.  With [total]
    missing the chunk is forwarded all the same, then the handler answers with
    an error and the sessions are unchanged. *)
Theorem relay_chunk_forwards
  (k r sock : string) (s : RelaySession.t) (p : Peer.t)
  (chunk : option string) (index total : option Z) (st : State) :
  dict_get k (relay_sessions st) = Some s ->
  RelaySession.receiver_id s = Some r ->
  dict_get r (connected_peers st) = Some p ->
  Peer.socket_id p = Some sock ->
  let st' := fst (relay_chunk (Some k) chunk index total st) in
  emitted st' = (emitted st ++ [emit_relay_chunk sock k chunk index total])%list
  /\ connected_peers st' = connected_peers st
  /\ transfer_requests st' = transfer_requests st
  /\ active_transfers st' = active_transfers st
  /\ (total = None ->
      snd (relay_chunk (Some k) chunk index total st)
      = sio_error "unsupported operand type(s) for -: 'NoneType' and 'int'"
      /\ relay_sessions st' = relay_sessions st)
  /\ (forall n,
         total = Some n -> index <> Some (n - 1) ->
         snd (relay_chunk (Some k) chunk index total st) = sio_success
         /\ relay_sessions st' = relay_sessions st).
Proof.
  intros Hget Hr Hp Hsock st'. subst st'.
  unfold relay_chunk, socket_of. rewrite Hget, Hr, Hp, Hsock.
  destruct total as [n|].
  - destruct index as [i|].
    + destruct (Z.eqb_spec i (n - 1)) as [->|Hne]; simpl;
        do 4 (split; [reflexivity|]); (split; [discriminate|]);
        intros n' [= <-] Hc.
      * congruence.
      * split; reflexivity.
    + simpl. do 4 (split; [reflexivity|]). split; [discriminate|].
      intros n' _ _. split; reflexivity.
  - simpl. do 4 (split; [reflexivity|]). split; [|discriminate].
    intros _. split; reflexivity.
Qed.

Lemma relay_chunk_forwards_witness :
  relay_chunk (Some "r1") (Some "bytes") (Some 0) None st_relay_to_p1
  = (sio_emit [emit_relay_chunk "s1" "r1" (Some "bytes") (Some 0) None]
       st_relay_to_p1,
     sio_error "unsupported operand type(s) for -: 'NoneType' and 'int'")
  /\ emitted (fst (relay_chunk (Some "r1") (Some "bytes") (Some 0) (Some 3)
                     st_relay_to_p1))
     = [emit_relay_chunk "s1" "r1" (Some "bytes") (Some 0) (Some 3)].
Proof.
  split; [reflexivity|].
  apply (relay_chunk_forwards "r1" "p1" "s1"
           (RelaySession.mk (Some "p0") (Some "p1") initiated 4)
           (Peer.mk "alice" "10.0.0.1" 0 online 0 (Some "s1") None)
           (Some "bytes") (Some 0) (Some 3) st_relay_to_p1); reflexivity.
Defined.

(** X21.  The relay fallback from start to end: a signal to a known peer
    without socket opens a relay session; while the peer has no socket a
    chunk for that session, also the last one, is answered 'queued' and
    changes nothing; once the peer has registered a socket the last chunk is
    answered 'success' and the session is ['completed']. *)
Theorem relay_fallback_lifecycle
  (k sid uuid : string) (p : Peer.t) (sender signal chunk : option string)
  (t1 t2 n : Z) (st : State) :
  k <> "" ->
  dict_get k (connected_peers st) = Some p ->
  Peer.socket_id p = None ->
  let st1 := fst (peer_signal (Some k) sender signal uuid t1 st) in
  let st2 := fst (register_socket sid (Some k) t2 st1) in
  dict_get uuid (relay_sessions st1)
  = Some (RelaySession.mk sender (Some k) initiated t1)
  /\ relay_chunk (Some uuid) chunk (Some (n - 1)) (Some n) st1
     = (st1, sio_queued "Receiver offline, chunk queued")
  /\ snd (relay_chunk (Some uuid) chunk (Some (n - 1)) (Some n) st2)
     = sio_success
  /\ dict_get uuid
       (relay_sessions
          (fst (relay_chunk (Some uuid) chunk (Some (n - 1)) (Some n) st2)))
     = Some (RelaySession.mk sender (Some k) completed t1).
Proof.
  intros Hne Hget Hsock st1 st2. apply String.eqb_neq in Hne.
  assert (H1 : relay_sessions st1
               = dict_set uuid (RelaySession.mk sender (Some k) initiated t1)
                   (relay_sessions st)
               /\ connected_peers st1 = connected_peers st).
  { subst st1. unfold peer_signal, initiate_relay, socket_of.
    rewrite Hget, Hsock. cbv zeta. cbn [connected_peers with_relay_sessions].
    destruct sender as [sk|]; [|split; reflexivity].
    destruct (dict_get sk (connected_peers st)) as [sp|]; [|split; reflexivity].
    destruct (Peer.socket_id sp); split; reflexivity. }
  destruct H1 as [Hrel Hpeers].
  assert (H2 : relay_sessions st2 = relay_sessions st1
               /\ dict_get k (connected_peers st2)
                  = Some (Peer.set_last_seen t2 (Peer.set_socket_id sid p))).
  { subst st2. unfold register_socket. rewrite Hne, Hpeers, Hget.
    cbn [fst with_connected_peers connected_peers relay_sessions].
    split; [reflexivity|apply dict_get_set_eq]. }
  destruct H2 as [Hrel2 Hget2].
  clearbody st2 st1.
  assert (Hs1 : dict_get uuid (relay_sessions st1)
                = Some (RelaySession.mk sender (Some k) initiated t1))
    by (rewrite Hrel; apply dict_get_set_eq).
  split; [exact Hs1|]. split.
  - unfold relay_chunk, socket_of. rewrite Hs1.
    cbn [RelaySession.receiver_id]. now rewrite Hpeers, Hget, Hsock.
  - unfold relay_chunk, socket_of. rewrite Hrel2, Hs1.
    cbn [RelaySession.receiver_id]. rewrite Hget2.
    cbn [Peer.socket_id Peer.set_last_seen Peer.set_socket_id].
    rewrite Z.eqb_refl. cbn [fst snd]. split; [reflexivity|].
    unfold with_relay_sessions, sio_emit. cbn [relay_sessions].
    rewrite Hrel2. apply dict_get_set_eq.
Qed.

Lemma relay_fallback_lifecycle_witness :
  dict_get "u1"
    (relay_sessions
       (fst (relay_chunk (Some "u1") (Some "bytes") (Some (3 - 1)) (Some 3)
               (fst (register_socket "sa1" (Some "a1") 6
                       (fst (peer_signal (Some "a1") (Some "b1") (Some "offer")
                               "u1" 5 st_many_peers)))))))
  = Some (RelaySession.mk (Some "b1") (Some "a1") completed 5).
Proof.
  apply (relay_fallback_lifecycle "a1" "sa1" "u1"
           (Peer.mk "alice" "10.0.0.1" 0 online 0 None None)
           (Some "b1") (Some "offer") (Some "bytes") 5 6 3 st_many_peers).
  - discriminate.
  - reflexivity.
  - reflexivity.
Defined.

(** ** Insertion order of the registries *)

Lemma keys_extend_refl {V : Type} (d : dict V) : keys_extend d d.
Proof. split; auto. exists []. now rewrite app_nil_r. Qed.

Lemma keys_extend_trans {V : Type} (d1 d2 d3 : dict V) :
  keys_extend d1 d2 -> keys_extend d2 d3 -> keys_extend d1 d3.
Proof.
  intros [[n1 H1] N1] [[n2 H2] N2]. split; auto.
  exists (n1 ++ n2)%list. now rewrite H2, H1, app_assoc.
Qed.

Lemma dict_keys_set {V : Type} (k : string) (v : V) (d : dict V) :
  dict_keys (dict_set k v d)
  = if dict_in k d then dict_keys d else (dict_keys d ++ [k])%list.
Proof.
  unfold dict_keys, dict_in. induction d as [|[k' v'] r IH]; simpl; auto.
  destruct (String.eqb k k') eqn:E; simpl; auto.
  rewrite IH. now destruct (dict_get k r).
Qed.

Lemma dict_in_keys {V : Type} (k : string) (d : dict V) :
  dict_in k d = false -> ~ In k (dict_keys d).
Proof.
  unfold dict_keys, dict_in. induction d as [|[k' v'] r IH]; simpl; auto.
  destruct (String.eqb k k') eqn:E; [discriminate|].
  intros Hget [Heq|Hin]; [|now apply IH].
  subst k'. now rewrite String.eqb_refl in E.
Qed.

Lemma keys_extend_set {V : Type} (k : string) (v : V) (d : dict V) :
  keys_extend d (dict_set k v d).
Proof.
  unfold keys_extend. rewrite dict_keys_set.
  destruct (dict_in k d) eqn:E.
  - split; auto. exists []. now rewrite app_nil_r.
  - split; [now exists [k]|]. intros Hnd.
    apply NoDup_app; [exact Hnd|repeat constructor; auto|].
    intros x Hx [<-|[]]. revert Hx. now apply dict_in_keys.
Qed.

Lemma keys_extend_map_cond {V : Type} (c : V -> bool) (h : V -> V)
  (d : dict V) :
  keys_extend d (map (fun e => if c (snd e) then (fst e, h (snd e)) else e) d).
Proof.
  unfold keys_extend. rewrite dict_keys_map_cond. split; auto.
  exists []. now rewrite app_nil_r.
Qed.

#[local] Hint Resolve keys_extend_refl keys_extend_set : registry.

Lemma keys_extend_set2 {V : Type} (k k' : string) (v v' : V) (d : dict V) :
  keys_extend d (dict_set k v (dict_set k' v' d)).
Proof. eapply keys_extend_trans; apply keys_extend_set. Qed.

#[local] Hint Resolve keys_extend_set2 : registry.

Section Order.
Variable secure_filename : string -> string.

Lemma step_extends (c : Call) (st : State) :
  registries_extend st (fst (step secure_filename c st)).
Proof.
  destruct c; cbn [step].
  - unfold registries_extend. cbn [fst].
    (split; [|split; [|split]]); auto with registry.
  - unfold disconnect, registries_extend. simpl.
    (split; [|split; [|split]]); auto with registry.
    unfold keys_extend. rewrite mark_offline_keys. split; auto.
    exists []. now rewrite app_nil_r.
  - unfold register_socket. extends_by_cases.
  - unfold peer_signal, initiate_relay. extends_by_cases.
  - unfold relay_chunk. extends_by_cases.
  - unfold get_status. extends_by_cases.
  - unfold connect_peer. extends_by_cases.
  - unfold heartbeat. extends_by_cases.
  - unfold get_peers. extends_by_cases.
  - unfold request_file_transfer. extends_by_cases.
  - unfold approve_transfer. extends_by_cases.
  - unfold upload_file. extends_by_cases.
  - unfold download_file. extends_by_cases.
  - unfold get_transfer_status. extends_by_cases.
  - unfold update_transfer_status. extends_by_cases.
  - unfold cancel_transfer. extends_by_cases.
  - unfold disconnect_peer. extends_by_cases.
  - unfold cleanup_inactive_peers, registries_extend. simpl.
    (split; [|split; [|split]]); auto with registry.
    apply keys_extend_map_cond
      with (c := fun q => (Peer.is_online q && timed_out now q)%bool)
           (h := Peer.set_status offline).
Qed.

Lemma run_extends (cs : list Call) :
  forall st, registries_extend st (run secure_filename cs st).
Proof.
  induction cs as [|c cs IH]; intros st.
  - unfold registries_extend. simpl.
    (split; [|split; [|split]]); auto with registry.
  - change (run secure_filename (c :: cs) st)
      with (run secure_filename cs (fst (step secure_filename c st))).
    destruct (step_extends c st) as [A1 [A2 [A3 A4]]].
    destruct (IH (fst (step secure_filename c st))) as [B1 [B2 [B3 B4]]].
    (split; [|split; [|split]]); eapply keys_extend_trans; eassumption.
Qed.

(** X22.  The registries keep their insertion order.  After any sequence
    of calls the ids of the peer registry are the ids it had, in the same
    order, followed by the ids registered since; the same holds for the
    active transfers.  So among several online peers of one user the one a
    first-match loop notifies never changes because of later calls.  No id
    ever appears twice. *)
Theorem registries_keep_insertion_order (cs : list Call) (st : State) :
  (exists new,
      dict_keys (connected_peers (run secure_filename cs st))
      = (dict_keys (connected_peers st) ++ new)%list)
  /\ (exists new,
         dict_keys (active_transfers (run secure_filename cs st))
         = (dict_keys (active_transfers st) ++ new)%list)
  /\ (NoDup (dict_keys (connected_peers st)) ->
      NoDup (dict_keys (connected_peers (run secure_filename cs st))))
  /\ (NoDup (dict_keys (active_transfers st)) ->
      NoDup (dict_keys (active_transfers (run secure_filename cs st)))).
Proof.
  destruct (run_extends cs st) as [[P1 P2] [_ [[T1 T2] _]]].
  repeat split; auto.
Qed.
End Order.

Lemma registries_keep_insertion_order_witness :
  dict_keys (active_transfers (run (fun f => f) sample_calls st_pending_request))
  = ["t1"; "t2"]
  /\ NoDup (dict_keys (connected_peers
                         (run (fun f => f) sample_calls st_pending_request))).
Proof.
  split; [reflexivity|].
  apply (proj1 (proj2 (proj2 (registries_keep_insertion_order (fun f => f)
                                sample_calls st_pending_request)))).
  repeat constructor; simpl; intuition.
Defined.
